(** * SEOAnalysisForm: a shallow embedding of [src/components/SEOAnalysisForm.tsx]

    The React component keeps four pieces of state ([formData], [isLoading],
    [results], [error]), two event handlers ([handleInputChange],
    [handleSubmit]) and a render function.  The handlers are embedded as
    functions on an explicit state record, the asynchronous [handleSubmit]
    is cut at its suspension point (the awaited [fetch]) into the part that
    runs on the click and the part that runs when the request settles, and
    the network is an explicit log of issued requests.

    The platform functions the handlers call ([parseInt], truthiness,
    [JSON.stringify]) are embedded in module [JS] after ECMA-262. *)

From Stdlib Require Import ZArith NArith List Bool Lia SpecFloat.
From Stdlib Require String Ascii.
Import ListNotations String.StringSyntax.
Open Scope string_scope.
Open Scope list_scope.

(* ===================================================================== *)
(** * Platform: strings, numbers, [parseInt], [JSON.stringify]            *)
(* ===================================================================== *)

Module JS.

(** ** Strings: sequences of UTF-16 code units *)

Definition code_unit := N.
Definition jsstring := list code_unit.

(** An ASCII literal of the source text as a JS string. *)
Definition lit (s : String.string) : jsstring :=
  map Ascii.N_of_ascii (String.list_ascii_of_string s).

(** The empty string, [''] in the source. *)
Definition empty_string : jsstring := [].

Definition jsstring_eqb (a b : jsstring) : bool :=
  if list_eq_dec N.eq_dec a b then true else false.

(** ToBoolean on a string: only the empty string is falsy. *)
Definition truthy_string (s : jsstring) : bool :=
  match s with
  | [] => false
  | _ :: _ => true
  end.

(** [a || b] where [a] is a property that is either absent or a string. *)
Definition or_string (a : option jsstring) (b : jsstring) : jsstring :=
  match a with
  | Some s => if truthy_string s then s else b
  | None => b
  end.

(** ** Numbers: IEEE 754 binary64 *)

Definition number := spec_float.
Definition prec : Z := 53.
Definition emax : Z := 1024.

(** The Number value for a mathematical integer (round to nearest, ties to
    even; overflow gives an infinity). *)
Definition of_Z (z : Z) : number := binary_normalize prec emax z 0 false.

Definition NaN : number := S754_nan.

(** ToBoolean on a number: [+0], [-0] and [NaN] are falsy. *)
Definition truthy_number (x : number) : bool :=
  match x with
  | S754_zero _ | S754_nan => false
  | S754_infinity _ | S754_finite _ _ _ => true
  end.

Definition or_number (a b : number) : number :=
  if truthy_number a then a else b.

(** ** [parseInt(string)] with the radix left undefined *)

Local Open Scope N_scope.

(** WhiteSpace and LineTerminator code points (all in the BMP). *)
Definition is_white_space (c : code_unit) : bool :=
  (c =? 0x09) || (c =? 0x0A) || (c =? 0x0B) || (c =? 0x0C) || (c =? 0x0D)
  || (c =? 0x20) || (c =? 0xA0) || (c =? 0x1680)
  || ((0x2000 <=? c) && (c <=? 0x200A))
  || (c =? 0x2028) || (c =? 0x2029) || (c =? 0x202F) || (c =? 0x205F)
  || (c =? 0x3000) || (c =? 0xFEFF).

Fixpoint trim_start (s : jsstring) : jsstring :=
  match s with
  | c :: r => if is_white_space c then trim_start r else s
  | [] => []
  end.

(** Value of a code unit as a digit: [0-9], then [a-z] and [A-Z] for 10..35. *)
Definition digit_value (c : code_unit) : option N :=
  if (0x30 <=? c) && (c <=? 0x39) then Some (c - 0x30)
  else if (0x61 <=? c) && (c <=? 0x7A) then Some (c - 0x61 + 10)
  else if (0x41 <=? c) && (c <=? 0x5A) then Some (c - 0x41 + 10)
  else None.

Definition radix_digit (R : N) (c : code_unit) : option N :=
  match digit_value c with
  | Some d => if d <? R then Some d else None
  | None => None
  end.

(** The digits of the longest prefix made of radix-[R] digits. *)
Fixpoint digits_prefix (R : N) (s : jsstring) : list N :=
  match s with
  | c :: r =>
      match radix_digit R c with
      | Some d => d :: digits_prefix R r
      | None => []
      end
  | [] => []
  end.

Definition mathInt (R : N) (ds : list N) : N :=
  fold_left (fun acc d => acc * R + d) ds 0.

Definition strip_sign (s : jsstring) : bool * jsstring :=
  match s with
  | c :: r =>
      if c =? 0x2D then (true, r)
      else if c =? 0x2B then (false, r)
      else (false, s)
  | [] => (false, [])
  end.

Definition strip_hex_prefix (s : jsstring) : N * jsstring :=
  match s with
  | c0 :: c1 :: r =>
      if (c0 =? 0x30) && ((c1 =? 0x78) || (c1 =? 0x58)) then (16, r)
      else (10, s)
  | _ => (10, s)
  end.

(** The mathematical result of [parseInt]: [None] when no digit is read,
    else the sign and the magnitude. *)
Definition parseInt_math (input : jsstring) : option (bool * N) :=
  let (neg, s1) := strip_sign (trim_start input) in
  let (R, s2) := strip_hex_prefix s1 in
  match digits_prefix R s2 with
  | [] => None
  | ds => Some (neg, mathInt R ds)
  end.

Definition parseInt (input : jsstring) : number :=
  match parseInt_math input with
  | None => NaN
  | Some (neg, 0) => S754_zero neg
  | Some (neg, m) => of_Z (if neg then - Z.of_N m else Z.of_N m)
  end.

(** ** [Number::toString] (radix 10)

    For a finite non-zero value [v = m * 2^e] the algorithm of ECMA-262
    picks integers [n], [k], [s] with [10^(k-1) <= s < 10^k], such that
    [s * 10^(n-k)] rounds to [v], [k] as small as possible, and among
    those the [s] closest to [v]. *)

Local Open Scope Z_scope.

(** Decimal digits of a non-negative integer, most significant first. *)
Fixpoint decimal_fuel (fuel : nat) (n : Z) (acc : jsstring) : jsstring :=
  match fuel with
  | O => acc
  | S f =>
      let acc' := Z.to_N (0x30 + n mod 10) :: acc in
      if n <? 10 then acc' else decimal_fuel f (n / 10) acc'
  end.

Definition decimal (n : Z) : jsstring :=
  decimal_fuel (S (Z.to_nat (Z.log2 n))) n [].

(** Compare [a * 10^j] with [b * 2^e], exactly. *)
Definition cmp_dec_bin (a j b e : Z) : comparison :=
  (a * 10 ^ Z.max j 0 * 2 ^ Z.max (- e) 0
     ?= b * 2 ^ Z.max e 0 * 10 ^ Z.max (- j) 0).

(** The reals that round to [m * 2^e] lie between the midpoints to its
    two neighbours; the midpoints themselves round to the even mantissa. *)
Definition lower_midpoint (m e : Z) : Z * Z :=
  if (m =? 2 ^ 52) && (-1074 <? e) then (4 * m - 1, e - 2)
  else (2 * m - 1, e - 1).

Definition upper_midpoint (m e : Z) : Z * Z := (2 * m + 1, e - 1).

Definition rounds_to (m e s j : Z) : bool :=
  let (lm, le) := lower_midpoint m e in
  let (um, ue) := upper_midpoint m e in
  match cmp_dec_bin s j lm le with
  | Gt => true
  | Eq => Z.even m
  | Lt => false
  end
  &&
  match cmp_dec_bin s j um ue with
  | Lt => true
  | Eq => Z.even m
  | Gt => false
  end.

(** The [n] with [10^(n-1) <= m * 2^e < 10^n], searched from an estimate. *)
Fixpoint find_n (fuel : nat) (m e n : Z) : Z :=
  match fuel with
  | O => n
  | S f =>
      match cmp_dec_bin 1 (n - 1) m e with
      | Gt => find_n f m e (n - 1)
      | _ =>
          match cmp_dec_bin 1 n m e with
          | Gt => n
          | _ => find_n f m e (n + 1)
          end
      end
  end.

Definition decimal_exponent (m e : Z) : Z :=
  find_n 700 m e ((Z.log2 m + e) * 1233 / 4096 + 1).

(** Candidates [(s, n)] with [k] digits: the two multiples of [10^(nv-k)]
    around [v], and the power of ten above. *)
Definition candidates (m e nv k : Z) : list (Z * Z) :=
  let j := nv - k in
  let num := m * 2 ^ Z.max e 0 * 10 ^ Z.max (- j) 0 in
  let den := 2 ^ Z.max (- e) 0 * 10 ^ Z.max j 0 in
  let sf := num / den in
  filter
    (fun c : Z * Z =>
       let (s, n) := c in
       (10 ^ (k - 1) <=? s) && (s <? 10 ^ k) && rounds_to m e s (n - k))
    [(sf, nv); (sf + 1, nv); (10 ^ (k - 1), nv + 1)].

(** Distance of [s * 10^(n-k)] to [m * 2^e], scaled by a common factor. *)
Definition distance (m e nv k : Z) (c : Z * Z) : Z :=
  let (s, n) := c in
  let up := Z.max (k - nv) 0 in
  Z.abs (s * 2 ^ Z.max (- e) 0 * 10 ^ (n - k + up)
         - m * 2 ^ Z.max e 0 * 10 ^ up).

Definition closer (m e nv k : Z) (a b : Z * Z) : Z * Z :=
  match distance m e nv k a ?= distance m e nv k b with
  | Lt => a
  | Gt => b
  | Eq => if Z.even (fst a) then a else b
  end.

Fixpoint shortest_from (fuel : nat) (m e nv k : Z) : Z * Z * Z :=
  match candidates m e nv k with
  | c :: cs =>
      let (s, n) := fold_left (closer m e nv k) cs c in (s, n, k)
  | [] =>
      match fuel with
      | O => (m, nv, k)
      | S f => shortest_from f m e nv (k + 1)
      end
  end.

(** [(s, n, k)] for [m * 2^e]; seventeen digits always suffice for a
    binary64 value, so the search ends before its fuel does. *)
Definition shortest (m e : Z) : Z * Z * Z :=
  shortest_from 17 m e (decimal_exponent m e) 1.

Definition zeros (n : Z) : jsstring := repeat 0x30%N (Z.to_nat n).

Definition format_decimal (snk : Z * Z * Z) : jsstring :=
  let '(s, n, k) := snk in
  let ds := decimal s in
  if (k <=? n) && (n <=? 21) then ds ++ zeros (n - k)
  else if (0 <? n) && (n <=? 21) then
    firstn (Z.to_nat n) ds ++ lit "." ++ skipn (Z.to_nat n) ds
  else if (-6 <? n) && (n <=? 0) then lit "0." ++ zeros (- n) ++ ds
  else
    let ex := lit "e" ++ (if n - 1 <? 0 then lit "-" else lit "+")
              ++ decimal (Z.abs (n - 1)) in
    if k =? 1 then ds ++ ex
    else firstn 1 ds ++ lit "." ++ skipn 1 ds ++ ex.

Definition NumberToString (x : number) : jsstring :=
  match x with
  | S754_nan => lit "NaN"
  | S754_zero _ => lit "0"
  | S754_infinity s => (if s then lit "-" else []) ++ lit "Infinity"
  | S754_finite s m e =>
      (if s then lit "-" else []) ++ format_decimal (shortest (Zpos m) e)
  end.

(** ** [JSON.stringify] on an object whose properties are strings and
    numbers (no replacer, no gap) *)

Local Open Scope N_scope.

Definition hex_digit (d : N) : code_unit :=
  if d <? 10 then 0x30 + d else 0x61 + (d - 10).

(** UnicodeEscape: a backslash, [u], and four lowercase hexadecimal digits. *)
Definition UnicodeEscape (c : code_unit) : jsstring :=
  [0x5C; 0x75; hex_digit (c / 4096 mod 16); hex_digit (c / 256 mod 16);
   hex_digit (c / 16 mod 16); hex_digit (c mod 16)].

Definition is_leading_surrogate (c : code_unit) : bool :=
  (0xD800 <=? c) && (c <=? 0xDBFF).

Definition is_trailing_surrogate (c : code_unit) : bool :=
  (0xDC00 <=? c) && (c <=? 0xDFFF).

(** The body of QuoteJSONString: short escapes for backspace, tab, line
    feed, form feed, carriage return, the double quote and the backslash;
    a Unicode escape for the other control characters and for a surrogate
    that is not part of a pair; every other code unit as it is. *)
Fixpoint escape_json (s : jsstring) : jsstring :=
  match s with
  | [] => []
  | c :: r =>
      if c =? 0x08 then 0x5C :: 0x62 :: escape_json r
      else if c =? 0x09 then 0x5C :: 0x74 :: escape_json r
      else if c =? 0x0A then 0x5C :: 0x6E :: escape_json r
      else if c =? 0x0C then 0x5C :: 0x66 :: escape_json r
      else if c =? 0x0D then 0x5C :: 0x72 :: escape_json r
      else if c =? 0x22 then 0x5C :: 0x22 :: escape_json r
      else if c =? 0x5C then 0x5C :: 0x5C :: escape_json r
      else if c <? 0x20 then UnicodeEscape c ++ escape_json r
      else if is_leading_surrogate c then
        match r with
        | d :: r' =>
            if is_trailing_surrogate d then c :: d :: escape_json r'
            else UnicodeEscape c ++ escape_json r
        | [] => UnicodeEscape c
        end
      else if is_trailing_surrogate c then UnicodeEscape c ++ escape_json r
      else c :: escape_json r
  end.

Definition QuoteJSONString (s : jsstring) : jsstring :=
  0x22 :: escape_json s ++ [0x22].

(** A property value of the serialized object. *)
Inductive JSValue :=
| JSString (s : jsstring)
| JSNumber (x : number).

Definition is_finite (x : number) : bool :=
  match x with
  | S754_zero _ | S754_finite _ _ _ => true
  | S754_infinity _ | S754_nan => false
  end.

Definition SerializeJSONProperty (v : JSValue) : jsstring :=
  match v with
  | JSString s => QuoteJSONString s
  | JSNumber x => if is_finite x then NumberToString x else lit "null"
  end.

Fixpoint join_comma (parts : list jsstring) : jsstring :=
  match parts with
  | [] => []
  | [p] => p
  | p :: ps => p ++ 0x2C :: join_comma ps
  end.

(** The own enumerable properties are given in their insertion order. *)
Definition SerializeJSONObject (props : list (jsstring * JSValue)) : jsstring :=
  0x7B
    :: join_comma
         (map (fun kv : jsstring * JSValue =>
                 QuoteJSONString (fst kv) ++ 0x3A :: SerializeJSONProperty (snd kv))
              props)
    ++ [0x7D].

(** A parsed JSON value that the component only passes through. *)
#[warnings="-register-all"] Inductive json :=
| JNull
| JBool (b : bool)
| JNum (x : number)
| JStr (s : jsstring)
| JArr (items : list json)
| JObj (props : list (jsstring * json)).

End JS.

Import JS.

(* ===================================================================== *)
(** * Data model (the two interfaces of the source)                       *)
(* ===================================================================== *)

(** [interface FormData] *)
Module FormData.
Record t := mk {
  url : jsstring;
  root_domain : jsstring;
  account_identifier : jsstring;
  language : jsstring;
  date_range : number;
  start_date : jsstring;
  end_date : jsstring
}.
End FormData.

(** [ApiResponse['data']]: three headline fields and the optional analysis
    blocks, which the component never inspects. *)
Module ApiData.
Record t := mk {
  url : jsstring;
  word_count : number;
  language : jsstring;
  keyword_analysis : option jsstring;
  semantic_scores : option jsstring;
  content_structure : option jsstring;
  readability_analysis : option jsstring;
  sentiment_analysis : option jsstring;
  speed_analysis : option jsstring;
  seo_suggestions : option jsstring;
  content_gaps : option jsstring;
  advanced_keywords : option json
}.
End ApiData.

(** [interface ApiResponse]; an optional property that is absent is [None]. *)
Module ApiResponse.
Record t := mk {
  success : bool;
  data : option ApiData.t;
  error : option jsstring
}.
End ApiResponse.

(* ===================================================================== *)
(** * Component state (the four [useState] hooks)                         *)
(* ===================================================================== *)

Record State := mkState {
  formData : FormData.t;
  isLoading : bool;
  results : option ApiData.t;
  error : jsstring
}.

Definition initial_state : State :=
  {| formData :=
       {| FormData.url := empty_string;
          FormData.root_domain := empty_string;
          FormData.account_identifier := empty_string;
          FormData.language := lit "en";
          FormData.date_range := of_Z 30;
          FormData.start_date := empty_string;
          FormData.end_date := empty_string |};
     isLoading := false;
     results := None;
     error := empty_string |}.

Definition setFormData (f : FormData.t -> FormData.t) (st : State) : State :=
  {| formData := f (formData st); isLoading := isLoading st;
     results := results st; error := error st |}.

Definition setIsLoading (b : bool) (st : State) : State :=
  {| formData := formData st; isLoading := b;
     results := results st; error := error st |}.

Definition setResults (r : option ApiData.t) (st : State) : State :=
  {| formData := formData st; isLoading := isLoading st;
     results := r; error := error st |}.

Definition setError (e : jsstring) (st : State) : State :=
  {| formData := formData st; isLoading := isLoading st;
     results := results st; error := e |}.

(* ===================================================================== *)
(** * [handleInputChange]                                                 *)
(* ===================================================================== *)

(** The [name] attribute of the seven controls that carry
    [onChange={handleInputChange}]. *)
Inductive FieldName :=
| name_url
| name_root_domain
| name_account_identifier
| name_language
| name_date_range
| name_start_date
| name_end_date.

(** [{ ...prev, [name]: name === 'date_range' ? parseInt(value) || 30 : value }] *)
Definition update_field (name : FieldName) (value : jsstring)
  (prev : FormData.t) : FormData.t :=
  let '(FormData.mk u r a l d s e) := prev in
  match name with
  | name_url => FormData.mk value r a l d s e
  | name_root_domain => FormData.mk u value a l d s e
  | name_account_identifier => FormData.mk u r value l d s e
  | name_language => FormData.mk u r a value d s e
  | name_date_range =>
      FormData.mk u r a l (or_number (parseInt value) (of_Z 30)) s e
  | name_start_date => FormData.mk u r a l d value e
  | name_end_date => FormData.mk u r a l d s value
  end.

Definition handleInputChange (name : FieldName) (value : jsstring)
  (st : State) : State :=
  setFormData (update_field name value) st.

(* ===================================================================== *)
(** * [handleSubmit]                                                      *)
(* ===================================================================== *)

(** ** The network as seen from the component *)

Record Request := mkRequest {
  request_url : jsstring;
  method : jsstring;
  headers : list (jsstring * jsstring);
  body : jsstring
}.

Definition endpoint : jsstring :=
  lit "https://seo-analyzer-api-n3b8.onrender.com/analyze".

(** A value that a rejected promise or a [throw] carries: an object for
    which [instanceof Error] holds, with its [message], or anything else. *)
Inductive Thrown :=
| ErrorInstance (message : jsstring)
| OtherValue.

(** What [response.json()] does with the body: it resolves to the parsed
    value, taken at the type that line 96 declares for it; or it rejects
    with a [SyntaxError] because the body is not JSON; or it rejects because
    the body could not be read. *)
Inductive BodyOutcome :=
| Parsed (d : ApiResponse.t)
| Malformed (message : jsstring)
| ReadFailed (reason : Thrown).

(** What the awaited [fetch] does: it rejects, or resolves to a response
    with its [ok] flag and its body. *)
Inductive FetchOutcome :=
| Rejected (reason : Thrown)
| Responded (ok : bool) (b : BodyOutcome).

(** ** Completions: a statement list ends normally or throws *)

Inductive Completion (A : Type) :=
| Normal (a : A)
| Throw (e : Thrown).

Arguments Normal {A} a.
Arguments Throw {A} e.

Definition bind {A B : Type} (c : Completion A) (k : A -> Completion B)
  : Completion B :=
  match c with
  | Normal a => k a
  | Throw e => Throw e
  end.

Notation "x <- c ;; k" := (bind c (fun x => k))
  (at level 61, c at next level, right associativity).

Definition await_fetch (o : FetchOutcome) : Completion (bool * BodyOutcome) :=
  match o with
  | Rejected reason => Throw reason
  | Responded ok b => Normal (ok, b)
  end.

(** A malformed body makes [response.json()] reject with a [SyntaxError],
    which is an [Error] instance carrying the parser's message. *)
Definition response_json (b : BodyOutcome) : Completion ApiResponse.t :=
  match b with
  | Parsed d => Normal d
  | Malformed message => Throw (ErrorInstance message)
  | ReadFailed reason => Throw reason
  end.

Definition new_Error (message : jsstring) : Thrown := ErrorInstance message.

(** ** The serialized form *)

Definition own_properties (f : FormData.t) : list (jsstring * JSValue) :=
  [ (lit "url", JSString (FormData.url f));
    (lit "root_domain", JSString (FormData.root_domain f));
    (lit "account_identifier", JSString (FormData.account_identifier f));
    (lit "language", JSString (FormData.language f));
    (lit "date_range", JSNumber (FormData.date_range f));
    (lit "start_date", JSString (FormData.start_date f));
    (lit "end_date", JSString (FormData.end_date f)) ].

Definition JSON_stringify (f : FormData.t) : jsstring :=
  SerializeJSONObject (own_properties f).

(** ** Up to the suspension point

    Lines 78 to 94: the validation guard, the three state updates and the
    call of [fetch].  The result is the new state and the requests issued. *)
Definition handleSubmit_start (st : State) : State * list Request :=
  if negb (truthy_string (FormData.url (formData st)))
     || negb (truthy_string (FormData.root_domain (formData st)))
     || negb (truthy_string (FormData.account_identifier (formData st)))
  then (setError (lit "Please fill in all required fields") st, [])
  else
    let st1 := setIsLoading true st in
    let st2 := setError (empty_string) st1 in
    let st3 := setResults None st2 in
    (st3,
     [ {| request_url := endpoint;
          method := lit "POST";
          headers := [(lit "Content-Type", lit "application/json")];
          body := JSON_stringify (formData st) |} ]).

(** ** After the suspension point

    Lines 94 to 112: the [try] block from the settled [fetch] on, the
    [catch] clause and the [finally] clause. *)
Definition try_block (o : FetchOutcome) (st : State) : Completion State :=
  response <- await_fetch o ;;
  data <- response_json (snd response) ;;
  if negb (fst response) then
    Throw (new_Error (or_string (ApiResponse.error data) (lit "Analysis failed")))
  else
    match ApiResponse.success data, ApiResponse.data data with
    | true, Some payload => Normal (setResults (Some payload) st)
    | _, _ =>
        Throw (new_Error (or_string (ApiResponse.error data) (lit "Analysis failed")))
    end.

Definition catch_block (err : Thrown) (st : State) : State :=
  let errorMessage :=
    match err with
    | ErrorInstance message => message
    | OtherValue => lit "An error occurred during analysis"
    end in
  setError errorMessage st.

Definition handleSubmit_resume (o : FetchOutcome) (st : State) : State :=
  let st1 :=
    match try_block o st with
    | Normal st' => st'
    | Throw err => catch_block err st
    end in
  setIsLoading false st1.

(** ** One whole run of [handleSubmit], given what the request settles to *)
Definition handleSubmit (o : FetchOutcome) (st : State) : State * list Request :=
  match handleSubmit_start st with
  | (st1, []) => (st1, [])
  | (st1, reqs) => (handleSubmit_resume o st1, reqs)
  end.


(* ===================================================================== *)
(** * Rendering                                                           *)
(* ===================================================================== *)

(** The part of the element tree that depends on the state: the button's
    [disabled] attribute and the two conditional regions. *)
#[warnings="-register-all"] Inductive Node :=
| Element (tag : String.string) (className : String.string) (children : list Node)
| JSXText (text : String.string)
| StringChild (s : jsstring)
| NumberChild (x : number)
| NullChild.

(** [disabled={isLoading}] on the submit button. *)
Definition submit_disabled (st : State) : bool := isLoading st.

(** [{error && (...)}], lines 274 to 285. *)
Definition error_region (st : State) : Node :=
  if truthy_string (error st) then
    Element "div" "mt-6 p-4 bg-red-50 border border-red-200 rounded-lg"
      [ Element "div" "flex"
          [ Element "div" "ml-3"
              [ Element "h3" "text-sm font-medium text-red-800"
                  [ JSXText "Analysis Error" ];
                Element "p" "mt-2 text-sm text-red-700"
                  [ StringChild (error st) ] ] ] ]
  else StringChild (error st).

(** [{results && (...)}], lines 287 to 315. *)
Definition results_region (st : State) : Node :=
  match results st with
  | Some results =>
      Element "div" "mt-8 p-6 bg-green-50 border border-green-200 rounded-lg"
        [ Element "h3" "text-lg font-medium text-green-800 mb-4"
            [ JSXText "Analysis Complete! 🎉" ];
          Element "div" "grid grid-cols-1 md:grid-cols-3 gap-4 text-sm"
            [ Element "div" "bg-white p-3 rounded border"
                [ Element "div" "font-medium text-gray-700"
                    [ JSXText "URL Analyzed" ];
                  Element "div" "text-green-600 truncate"
                    [ StringChild (ApiData.url results) ] ];
              Element "div" "bg-white p-3 rounded border"
                [ Element "div" "font-medium text-gray-700"
                    [ JSXText "Word Count" ];
                  Element "div" "text-green-600"
                    [ NumberChild (ApiData.word_count results) ] ];
              Element "div" "bg-white p-3 rounded border"
                [ Element "div" "font-medium text-gray-700"
                    [ JSXText "Language" ];
                  Element "div" "text-green-600"
                    [ StringChild (ApiData.language results) ] ] ];
          Element "div" "mt-4"
            [ Element "button"
                "bg-green-600 text-white px-4 py-2 rounded hover:bg-green-700 transition-colors"
                [ JSXText "View Full Results" ] ] ]
  | None => NullChild
  end.

(** The leaves of a tree, left to right. *)
Fixpoint leaves (n : Node) : list Node :=
  match n with
  | Element _ _ children => flat_map leaves children
  | leaf => [leaf]
  end.

Definition is_expression (n : Node) : bool :=
  match n with
  | StringChild _ | NumberChild _ => true
  | Element _ _ _ | JSXText _ | NullChild => false
  end.

(** The values that the state contributes to a region, in document order. *)
Definition displayed_values (n : Node) : list Node :=
  filter is_expression (leaves n).

(* ===================================================================== *)
(** * The component in its environment                                    *)
(* ===================================================================== *)

(** The mounted component, the log of the requests issued so far, and the
    number of requests that have not settled yet. *)
Record World := mkWorld {
  ui : State;
  sent : list Request;
  awaiting : nat
}.

Definition initial_world : World :=
  {| ui := initial_state; sent := []; awaiting := 0 |}.

Inductive Event :=
| Change (name : FieldName) (value : jsstring)
| Click
| Settle (o : FetchOutcome).

(** One event, handled to completion before the next one: the state that
    a handler reads is the one of the latest render.  A click on a disabled
    button dispatches no handler; a request can only settle if one is
    outstanding. *)
Definition step (w : World) (ev : Event) : option World :=
  match ev with
  | Change name value =>
      Some {| ui := handleInputChange name value (ui w);
              sent := sent w; awaiting := awaiting w |}
  | Click =>
      if submit_disabled (ui w) then Some w
      else
        let (st, reqs) := handleSubmit_start (ui w) in
        Some {| ui := st; sent := sent w ++ reqs;
                awaiting := awaiting w + length reqs |}
  | Settle o =>
      match awaiting w with
      | O => None
      | S n =>
          Some {| ui := handleSubmit_resume o (ui w);
                  sent := sent w; awaiting := n |}
      end
  end.

Fixpoint run (w : World) (evs : list Event) : option World :=
  match evs with
  | [] => Some w
  | ev :: rest =>
      match step w ev with
      | Some w' => run w' rest
      | None => None
      end
  end.

Definition reachable (w : World) : Prop :=
  exists evs, run initial_world evs = Some w.

(* ===================================================================== *)
(** * Predicates on the state, and concrete inputs                        *)
(* ===================================================================== *)

(** The guard of line 78 and its negation, as propositions. *)
Definition missing_required (f : FormData.t) : Prop :=
  FormData.url f = empty_string
  \/ FormData.root_domain f = empty_string
  \/ FormData.account_identifier f = empty_string.

Definition all_required (f : FormData.t) : Prop :=
  FormData.url f <> empty_string
  /\ FormData.root_domain f <> empty_string
  /\ FormData.account_identifier f <> empty_string.

(** What every reachable world satisfies: a request is outstanding exactly
    while [isLoading] is set; while it is set there is neither a result nor
    an error text; and an error text next to a held result can only be the
    validation text. *)
Record invariant (w : World) : Prop := {
  inv_awaiting : awaiting w = if isLoading (ui w) then 1 else 0;
  inv_loading :
    isLoading (ui w) = true ->
    results (ui w) = None /\ error (ui w) = empty_string;
  inv_stale :
    results (ui w) <> None ->
    error (ui w) = empty_string
    \/ error (ui w) = lit "Please fill in all required fields"
}.

(** The [error] string of the body, if the body parses and has one. *)
Definition server_error (o : FetchOutcome) : option jsstring :=
  match o with
  | Responded _ (Parsed d) => ApiResponse.error d
  | _ => None
  end.

(** [response.ok], when there is a response. *)
Definition response_ok (o : FetchOutcome) : bool :=
  match o with
  | Responded ok _ => ok
  | Rejected _ => false
  end.

(** A form with the three required fields filled in. *)
Definition filled_form : FormData.t :=
  {| FormData.url := lit "https://example.com/page";
     FormData.root_domain := lit "example.com";
     FormData.account_identifier := lit "my-website";
     FormData.language := lit "en";
     FormData.date_range := of_Z 30;
     FormData.start_date := empty_string;
     FormData.end_date := empty_string |}.

Definition filled_state : State :=
  {| formData := filled_form; isLoading := false;
     results := None; error := empty_string |}.

(** An ASCII literal between double quotes. *)
Definition quoted (s : String.string) : jsstring :=
  [0x22%N] ++ lit s ++ [0x22%N].

(** A payload of the analysis service. *)
Definition sample_data : ApiData.t :=
  {| ApiData.url := lit "https://example.com/page";
     ApiData.word_count := of_Z 812;
     ApiData.language := lit "en";
     ApiData.keyword_analysis := Some (lit "seo: 12");
     ApiData.semantic_scores := None;
     ApiData.content_structure := None;
     ApiData.readability_analysis := None;
     ApiData.sentiment_analysis := None;
     ApiData.speed_analysis := None;
     ApiData.seo_suggestions := None;
     ApiData.content_gaps := None;
     ApiData.advanced_keywords := Some (JObj [(lit "collocations", JArr [])]) |}.

(** A body with [success: false] and an error string. *)
Definition refused : ApiResponse.t :=
  {| ApiResponse.success := false;
     ApiResponse.data := None;
     ApiResponse.error := Some (lit "Could not fetch the page") |}.

(** A gateway error: status 502 with an HTML page as its body, on which
    the JSON parser stops at the first character. *)
Definition bad_gateway : FetchOutcome :=
  Responded false (Malformed (lit "Unexpected token < in JSON at position 0")).

(** A body with [success: true], no [data], and no [error]. *)
Definition hollow : ApiResponse.t :=
  {| ApiResponse.success := true;
     ApiResponse.data := None;
     ApiResponse.error := None |}.

(** A body with [success: true], no [data], and an [error] string. *)
Definition hollow_with_error : ApiResponse.t :=
  {| ApiResponse.success := true;
     ApiResponse.data := None;
     ApiResponse.error := Some (lit "Quota exceeded") |}.

(** Fill the form, submit, receive a result, clear the URL, submit again. *)
Definition stale_trace : list Event :=
  [ Change name_url (lit "https://example.com/page");
    Change name_root_domain (lit "example.com");
    Change name_account_identifier (lit "my-website");
    Click;
    Settle (Responded true
              (Parsed {| ApiResponse.success := true;
                         ApiResponse.data := Some sample_data;
                         ApiResponse.error := None |}));
    Change name_url empty_string;
    Click ].

(** The world that [stale_trace] leads to. *)
Definition stale_world : World :=
  {| ui :=
       {| formData :=
            {| FormData.url := empty_string;
               FormData.root_domain := lit "example.com";
               FormData.account_identifier := lit "my-website";
               FormData.language := lit "en";
               FormData.date_range := of_Z 30;
               FormData.start_date := empty_string;
               FormData.end_date := empty_string |};
          isLoading := false;
          results := Some sample_data;
          error := lit "Please fill in all required fields" |};
     sent :=
       [ {| request_url := endpoint;
            method := lit "POST";
            headers := [(lit "Content-Type", lit "application/json")];
            body := JSON_stringify filled_form |} ];
     awaiting := 0 |}.

(** Fill the form and submit. *)
Definition loading_trace : list Event :=
  [ Change name_url (lit "https://example.com/page");
    Change name_root_domain (lit "example.com");
    Change name_account_identifier (lit "my-website");
    Click ].

(** The world that [loading_trace] leads to: the request is outstanding. *)
Definition loading_world : World :=
  {| ui := {| formData := filled_form; isLoading := true;
              results := None; error := empty_string |};
     sent :=
       [ {| request_url := endpoint;
            method := lit "POST";
            headers := [(lit "Content-Type", lit "application/json")];
            body := JSON_stringify filled_form |} ];
     awaiting := 1 |}.

(* ===================================================================== *)
(** * The form as an object, the controls and the button                  *)
(* ===================================================================== *)

(** The [name] attribute of each control, lines 137 to 244. *)
Definition name_attr (name : FieldName) : jsstring :=
  match name with
  | name_url => lit "url"
  | name_root_domain => lit "root_domain"
  | name_account_identifier => lit "account_identifier"
  | name_language => lit "language"
  | name_date_range => lit "date_range"
  | name_start_date => lit "start_date"
  | name_end_date => lit "end_date"
  end.

(** [{ ...prev, [key]: v }] on an object given by its own properties in
    insertion order: a key that is present keeps its place and takes the new
    value, a key that is absent is added at the end. *)
Fixpoint object_with (props : list (jsstring * JSValue)) (key : jsstring)
  (v : JSValue) : list (jsstring * JSValue) :=
  match props with
  | [] => [(key, v)]
  | (k, x) :: rest =>
      if jsstring_eqb k key then (k, v) :: rest
      else (k, x) :: object_with rest key v
  end.

(** [name === 'date_range' ? parseInt(value) || 30 : value], on the name
    as a string. *)
Definition changed_value (name value : jsstring) : JSValue :=
  if jsstring_eqb name (lit "date_range")
  then JSNumber (or_number (parseInt value) (of_Z 30))
  else JSString value.

(** [obj[key]]: the value of an own property, if there is one. *)
Fixpoint get_property (props : list (jsstring * JSValue)) (key : jsstring)
  : option JSValue :=
  match props with
  | [] => None
  | (k, x) :: rest =>
      if jsstring_eqb k key then Some x else get_property rest key
  end.

(** The [value] attribute of each control: [value={formData.url}] and so
    on, lines 139 to 245. *)
Definition control_value (name : FieldName) (st : State) : JSValue :=
  match name with
  | name_url => JSString (FormData.url (formData st))
  | name_root_domain => JSString (FormData.root_domain (formData st))
  | name_account_identifier =>
      JSString (FormData.account_identifier (formData st))
  | name_language => JSString (FormData.language (formData st))
  | name_date_range => JSNumber (FormData.date_range (formData st))
  | name_start_date => JSString (FormData.start_date (formData st))
  | name_end_date => JSString (FormData.end_date (formData st))
  end.

(** The submit button, lines 253 to 270: its class and its content depend
    on [isLoading]. *)
Definition submit_button (st : State) : Node :=
  Element "button"
    (String.append
       "w-full py-4 px-6 rounded-lg font-semibold text-white transition-all duration-200 transform "
       (if isLoading st
        then "bg-gray-400 cursor-not-allowed"
        else "bg-blue-600 hover:bg-blue-700 hover:scale-105 focus:ring-4 focus:ring-blue-200"))
    [ if isLoading st then
        Element "div" "flex items-center justify-center"
          [ Element "div"
              "animate-spin rounded-full h-6 w-6 border-b-2 border-white mr-3" [];
            JSXText "Analyzing... This may take a few minutes" ]
      else StringChild (lit "Analyze SEO") ].

(** Whether a region puts an element on the page. *)
Definition is_element (n : Node) : bool :=
  match n with
  | Element _ _ _ => true
  | JSXText _ | StringChild _ | NumberChild _ | NullChild => false
  end.

(** The number of requests that settle along a trace. *)
Definition is_settle (ev : Event) : bool :=
  match ev with
  | Settle _ => true
  | Change _ _ | Click => false
  end.


(** What every request of the component looks like: a POST to the endpoint
    with the JSON content type, carrying a form whose required fields are
    filled in. *)
Definition analysis_request (req : Request) : Prop :=
  request_url req = endpoint
  /\ method req = lit "POST"
  /\ headers req = [(lit "Content-Type", lit "application/json")]
  /\ exists f : FormData.t, all_required f /\ body req = JSON_stringify f.

(** The code unit of a decimal digit. *)
Definition digit_unit (d : N) : code_unit := (0x30 + d)%N.

(** ** Reading a JSON string back

    The reader below undoes [escape_json]; it serves the proof that the
    body keeps the text fields apart and intact. *)

(** The code unit that a two-character escape stands for. *)
Definition simple_unescape (e : code_unit) : option code_unit :=
  if (e =? 0x62)%N then Some 0x08%N
  else if (e =? 0x74)%N then Some 0x09%N
  else if (e =? 0x6E)%N then Some 0x0A%N
  else if (e =? 0x66)%N then Some 0x0C%N
  else if (e =? 0x72)%N then Some 0x0D%N
  else if (e =? 0x22)%N then Some 0x22%N
  else if (e =? 0x5C)%N then Some 0x5C%N
  else None.

Definition prepend (c : code_unit) (p : jsstring * jsstring)
  : jsstring * jsstring :=
  (c :: fst p, snd p).

(** Read the content of a string literal, from after its opening quote up to
    its closing quote; the result is the content and what follows the
    closing quote. *)
Fixpoint read_string_body (s : jsstring) : option (jsstring * jsstring) :=
  match s with
  | [] => None
  | c :: r =>
      if (c =? 0x22)%N then Some ([], r)
      else if (c =? 0x5C)%N then
        match r with
        | [] => None
        | e :: r1 =>
            if (e =? 0x75)%N then
              match r1 with
              | h1 :: h2 :: h3 :: h4 :: r2 =>
                  match radix_digit 16 h1, radix_digit 16 h2,
                        radix_digit 16 h3, radix_digit 16 h4 with
                  | Some d1, Some d2, Some d3, Some d4 =>
                      option_map
                        (prepend (d1 * 4096 + d2 * 256 + d3 * 16 + d4)%N)
                        (read_string_body r2)
                  | _, _, _, _ => None
                  end
              | _ => None
              end
            else
              match simple_unescape e with
              | Some x => option_map (prepend x) (read_string_body r1)
              | None => None
              end
        end
      else option_map (prepend c) (read_string_body r)
  end.

(** Any code unit but the comma, which separates the properties. *)
Definition not_comma (c : code_unit) : Prop := c <> 0x2C%N.

(* ===================================================================== *)
(** * Facts about the platform model                                      *)
(* ===================================================================== *)

Section Rounding.

Local Open Scope Z_scope.

Lemma digits2_pos_log2 (p : positive) :
  Zpos (digits2_pos p) = Z.log2 (Zpos p) + 1.
Proof.
  induction p as [p IH | p IH | ]; simpl digits2_pos.
  - rewrite Pos2Z.inj_succ, IH.
    change (Zpos p~1) with (2 * Zpos p + 1).
    rewrite Z.log2_succ_double by lia. lia.
  - rewrite Pos2Z.inj_succ, IH.
    change (Zpos p~0) with (2 * Zpos p).
    rewrite Z.log2_double by lia. lia.
  - reflexivity.
Qed.

Lemma shr_1_mantissa (mrs : shr_record) :
  0 <= shr_m mrs -> shr_m (shr_1 mrs) = shr_m mrs / 2.
Proof.
  destruct mrs as [m r s]; simpl shr_m at 1 3; intros Hm.
  destruct m as [ | [p | p | ] | p ]; simpl; try lia; try reflexivity.
  - rewrite Pos2Z.inj_xI.
    replace (2 * Zpos p + 1) with (1 + Zpos p * 2) by lia.
    rewrite Z.div_add by lia. reflexivity.
  - rewrite Pos2Z.inj_xO.
    replace (2 * Zpos p) with (Zpos p * 2) by lia.
    rewrite Z.div_mul by lia. reflexivity.
Qed.

Lemma iter_shr_1_mantissa (p : positive) :
  forall mrs : shr_record,
    0 <= shr_m mrs ->
    shr_m (iter_pos shr_1 p mrs) = shr_m mrs / 2 ^ Zpos p.
Proof.
  assert (Hnn : forall q mrs, 0 <= shr_m mrs ->
                         shr_m (iter_pos shr_1 q mrs) = shr_m mrs / 2 ^ Zpos q ->
                         0 <= shr_m (iter_pos shr_1 q mrs)).
  { intros q mrs H0 ->. apply Z.div_pos; lia. }
  induction p as [p IH | p IH | ]; intros mrs Hm; simpl iter_pos.
  - assert (H1 : 0 <= shr_m (shr_1 mrs)).
    { rewrite shr_1_mantissa by exact Hm. apply Z.div_pos; lia. }
    rewrite IH by (apply Hnn; auto).
    rewrite IH by exact H1.
    rewrite shr_1_mantissa by exact Hm.
    rewrite !Z.div_div by lia.
    f_equal. change (2 * (2 ^ Zpos p * 2 ^ Zpos p)) with (2 ^ 1 * (2 ^ Zpos p * 2 ^ Zpos p)).
    rewrite <- !Z.pow_add_r by lia. f_equal. lia.
  - rewrite IH by (apply Hnn; auto).
    rewrite IH by exact Hm.
    rewrite Z.div_div by lia.
    f_equal. rewrite <- Z.pow_add_r by lia. f_equal. lia.
  - rewrite shr_1_mantissa by exact Hm. reflexivity.
Qed.

Lemma shr_record_of_loc_mantissa (m : Z) (l : location) :
  shr_m (shr_record_of_loc m l) = m.
Proof. destruct l as [ | [ | | ] ]; reflexivity. Qed.

(** Shifting a positive mantissa to its format exponent leaves it positive,
    as long as the exponent is not below the smallest one. *)
Lemma shr_fexp_positive (m e : Z) (l : location) :
  0 < m -> -1074 <= e ->
  0 < shr_m (fst (shr_fexp prec emax m e l))
  /\ -1074 <= snd (shr_fexp prec emax m e l).
Proof.
  intros Hm He. unfold shr_fexp, shr.
  destruct (fexp prec emax (Zdigits2 m + e) - e) as [ | n | n ] eqn:Hn;
    simpl fst; simpl snd; rewrite ?shr_record_of_loc_mantissa; try lia.
  destruct m as [ | p | p ]; try lia.
  simpl Zdigits2 in Hn. rewrite digits2_pos_log2 in Hn.
  unfold fexp, emin, prec, emax in Hn.
  rewrite iter_shr_1_mantissa by (rewrite shr_record_of_loc_mantissa; lia).
  rewrite shr_record_of_loc_mantissa.
  split; [ | lia ].
  assert (Hlog : 2 ^ Z.log2 (Zpos p) <= Zpos p) by (apply Z.log2_spec; lia).
  assert (Hle : Zpos n <= Z.log2 (Zpos p)) by lia.
  assert (Hpow : 2 ^ Zpos n <= 2 ^ Z.log2 (Zpos p))
    by (apply Z.pow_le_mono_r; lia).
  apply Z.div_str_pos. lia.
Qed.

Lemma round_nearest_even_positive (m : Z) (l : location) :
  0 < m -> 0 < round_nearest_even m l.
Proof.
  intros Hm. unfold round_nearest_even.
  destruct l as [ | [ | | ] ]; try destruct (Z.even m); lia.
Qed.

Lemma binary_round_aux_truthy (sx : bool) (m e : Z) (l : location) :
  0 < m -> -1074 <= e ->
  truthy_number (binary_round_aux prec emax sx m e l) = true.
Proof.
  intros Hm He. unfold binary_round_aux.
  destruct (shr_fexp_positive m e l Hm He) as [H1 H2].
  destruct (shr_fexp prec emax m e l) as [mrs1 e1]; simpl in H1, H2.
  pose proof (round_nearest_even_positive _ (loc_of_shr_record mrs1) H1) as H3.
  destruct (shr_fexp_positive _ e1 loc_Exact H3 H2) as [H4 _].
  destruct (shr_fexp prec emax _ e1 loc_Exact) as [mrs2 e2]; simpl in H4.
  destruct (shr_m mrs2) as [ | q | q ]; try lia.
  destruct (e2 <=? emax - prec); reflexivity.
Qed.

(** The Number value of a non-zero integer is truthy. *)
Lemma of_Z_truthy (z : Z) : z <> 0 -> truthy_number (of_Z z) = true.
Proof.
  intros Hz. unfold of_Z, binary_normalize.
  destruct z as [ | p | p ]; try contradiction;
    unfold binary_round, shl_align;
    remember (fexp prec emax (Zpos (digits2_pos p) + 0)) as ex eqn:Hex;
    assert (Hmin : -1074 <= ex)
      by (subst ex; unfold fexp, emin, prec, emax; lia);
    destruct (ex - 0) as [ | d | d ] eqn:Hd;
    apply binary_round_aux_truthy; lia.
Qed.

End Rounding.

(** ** The platform model on known values *)

Example parseInt_400 : parseInt (lit "400") = of_Z 400.
Proof. reflexivity. Qed.

Example parseInt_abc : parseInt (lit "abc") = NaN.
Proof. reflexivity. Qed.

Example parseInt_hex : parseInt (lit "0x1F") = of_Z 31.
Proof. reflexivity. Qed.

Example parseInt_leading_integer : parseInt (lit " -12.5e3") = of_Z (-12).
Proof. reflexivity. Qed.

Example quote_sample :
  QuoteJSONString (lit "a" ++ [0x22; 0x0A; 0x01; 0xD83C; 0xDF89; 0xDC00]%N)
  = [0x22; 0x61; 0x5C; 0x22; 0x5C; 0x6E]%N ++ lit "\u0001"
    ++ [0xD83C; 0xDF89]%N ++ lit "\udc00" ++ [0x22]%N.
Proof. reflexivity. Qed.

Example NumberToString_30 : NumberToString (of_Z 30) = lit "30".
Proof. vm_compute. reflexivity. Qed.

Example NumberToString_negative : NumberToString (of_Z (-365)) = lit "-365".
Proof. vm_compute. reflexivity. Qed.

Example NumberToString_2_53 :
  NumberToString (of_Z (2 ^ 53)) = lit "9007199254740992".
Proof. vm_compute. reflexivity. Qed.

Example NumberToString_rounded :
  NumberToString (of_Z 123456789012345678901) = lit "123456789012345680000".
Proof. vm_compute. reflexivity. Qed.

Example NumberToString_1e21 : NumberToString (of_Z (10 ^ 21)) = lit "1e+21".
Proof. vm_compute. reflexivity. Qed.

Example NumberToString_1e23 : NumberToString (of_Z (10 ^ 23)) = lit "1e+23".
Proof. vm_compute. reflexivity. Qed.

Example NumberToString_2_70 :
  NumberToString (of_Z (2 ^ 70)) = lit "1.1805916207174113e+21".
Proof. vm_compute. reflexivity. Qed.

Example NumberToString_largest :
  NumberToString (S754_finite false 9007199254740991 971)
  = lit "1.7976931348623157e+308".
Proof. vm_compute. reflexivity. Qed.

Example NumberToString_smallest :
  NumberToString (S754_finite false 1 (-1074)) = lit "5e-324".
Proof. vm_compute. reflexivity. Qed.

Example NumberToString_tenth :
  NumberToString (S754_finite false 7205759403792794 (-56)) = lit "0.1".
Proof. vm_compute. reflexivity. Qed.

Example NumberToString_small :
  NumberToString (S754_finite false 7555786372591432 (-76)) = lit "1e-7".
Proof. vm_compute. reflexivity. Qed.

Example of_Z_overflow : of_Z (10 ^ 400) = S754_infinity false.
Proof. vm_compute. reflexivity. Qed.

Example parseInt_zero : parseInt (lit "-0") = S754_zero true.
Proof. reflexivity. Qed.

Example parseInt_spaces :
  parseInt ([0xA0; 0x2003; 0xFEFF]%N ++ lit "+7 days") = of_Z 7.
Proof. reflexivity. Qed.

(* ===================================================================== *)
(** * Validation and the request                                          *)
(* ===================================================================== *)

Lemma truthy_string_empty (s : jsstring) :
  truthy_string s = false <-> s = empty_string.
Proof. destruct s; split; intros H; try reflexivity; discriminate. Qed.

Lemma truthy_string_nonempty (s : jsstring) :
  truthy_string s = true <-> s <> empty_string.
Proof.
  destruct s; split; intros H; try reflexivity; try discriminate.
  contradiction H; reflexivity.
Qed.

Lemma handleSubmit_start_missing (st : State) :
  missing_required (formData st) ->
  handleSubmit_start st
  = (setError (lit "Please fill in all required fields") st, []).
Proof.
  intros H. unfold handleSubmit_start.
  destruct H as [H | [H | H]]; apply truthy_string_empty in H; rewrite H;
    rewrite ?orb_true_r; reflexivity.
Qed.

Lemma handleSubmit_start_valid (st : State) :
  all_required (formData st) ->
  handleSubmit_start st
  = ({| formData := formData st; isLoading := true;
        results := None; error := empty_string |},
     [ {| request_url := endpoint;
          method := lit "POST";
          headers := [(lit "Content-Type", lit "application/json")];
          body := JSON_stringify (formData st) |} ]).
Proof.
  intros (Hu & Hr & Ha). unfold handleSubmit_start.
  apply truthy_string_nonempty in Hu, Hr, Ha.
  rewrite Hu, Hr, Ha. reflexivity.
Qed.

(** One whole run on a valid form is the second half applied to the
    loading state, with the one request issued. *)
Lemma handleSubmit_valid (o : FetchOutcome) (st : State) :
  all_required (formData st) ->
  handleSubmit o st
  = (handleSubmit_resume o
       {| formData := formData st; isLoading := true;
          results := None; error := empty_string |},
     [ {| request_url := endpoint;
          method := lit "POST";
          headers := [(lit "Content-Type", lit "application/json")];
          body := JSON_stringify (formData st) |} ]).
Proof.
  intros H. unfold handleSubmit.
  rewrite (handleSubmit_start_valid st H). reflexivity.
Qed.

(** C1. Whenever one of [url], [root_domain], [account_identifier] is the
    empty string, a run of [handleSubmit] issues no request, whatever the
    network would answer, and sets [error] to the fixed text
    'Please fill in all required fields'; a click in such a world leaves
    the request log and the number of outstanding requests as they were,
    and, the button being enabled, leaves that text in [error]. *)
Theorem C1_missing_field_no_request (w : World) (o : FetchOutcome) :
  missing_required (formData (ui w)) ->
  snd (handleSubmit o (ui w)) = []
  /\ error (fst (handleSubmit o (ui w)))
     = lit "Please fill in all required fields"
  /\ exists w', step w Click = Some w'
                /\ sent w' = sent w /\ awaiting w' = awaiting w
                /\ (isLoading (ui w) = false ->
                    error (ui w') = lit "Please fill in all required fields").
Proof.
  intros H. unfold handleSubmit.
  rewrite (handleSubmit_start_missing _ H). simpl.
  repeat split.
  unfold step, submit_disabled. destruct (isLoading (ui w)).
  - exists w. repeat split. discriminate.
  - rewrite (handleSubmit_start_missing _ H).
    eexists. split; [reflexivity | ]. simpl.
    rewrite app_nil_r, Nat.add_0_r. auto.
Qed.

Lemma C1_missing_field_no_request_witness :
  missing_required (formData (ui initial_world))
  /\ snd (handleSubmit (Rejected OtherValue) (ui initial_world)) = [].
Proof.
  split.
  - left. reflexivity.
  - apply (C1_missing_field_no_request initial_world (Rejected OtherValue)).
    left. reflexivity.
Defined.

(** C2. Whenever [url], [root_domain] and [account_identifier] are all
    non-empty, the synchronous part of [handleSubmit] sets [isLoading],
    clears [results] and [error], and issues exactly one request: a POST to
    the fixed endpoint, with the JSON content type, whose body is the JSON
    text of the object with the keys url, root_domain, account_identifier,
    language, date_range, start_date, end_date, in this order, holding the
    seven fields of the form. A click on the enabled button appends this one
    request to the log and makes it the outstanding one. *)
Theorem C2_valid_form_one_post (st : State) :
  FormData.url (formData st) <> empty_string ->
  FormData.root_domain (formData st) <> empty_string ->
  FormData.account_identifier (formData st) <> empty_string ->
  exists req : Request,
    handleSubmit_start st
    = ({| formData := formData st; isLoading := true;
          results := None; error := empty_string |}, [req])
    /\ request_url req
       = lit "https://seo-analyzer-api-n3b8.onrender.com/analyze"
    /\ method req = lit "POST"
    /\ headers req = [(lit "Content-Type", lit "application/json")]
    /\ body req
       = SerializeJSONObject
           [ (lit "url", JSString (FormData.url (formData st)));
             (lit "root_domain",
               JSString (FormData.root_domain (formData st)));
             (lit "account_identifier",
               JSString (FormData.account_identifier (formData st)));
             (lit "language", JSString (FormData.language (formData st)));
             (lit "date_range", JSNumber (FormData.date_range (formData st)));
             (lit "start_date", JSString (FormData.start_date (formData st)));
             (lit "end_date", JSString (FormData.end_date (formData st))) ]
    /\ forall w : World,
         ui w = st -> isLoading st = false ->
         step w Click
         = Some {| ui := {| formData := formData st; isLoading := true;
                            results := None; error := empty_string |};
                   sent := sent w ++ [req];
                   awaiting := awaiting w + 1 |}.
Proof.
  intros Hu Hr Ha.
  assert (Hreq : all_required (formData st)) by (repeat split; assumption).
  eexists. split; [ apply (handleSubmit_start_valid st Hreq) | ].
  repeat split.
  intros w Hw Hld. unfold step, submit_disabled.
  rewrite Hw, Hld, (handleSubmit_start_valid st Hreq). reflexivity.
Qed.

Lemma filled_form_all_required : all_required filled_form.
Proof. repeat split; discriminate. Qed.

Lemma C2_valid_form_one_post_witness :
  FormData.url (formData filled_state) <> empty_string
  /\ FormData.root_domain (formData filled_state) <> empty_string
  /\ FormData.account_identifier (formData filled_state) <> empty_string
  /\ exists req : Request,
       handleSubmit_start filled_state
       = ({| formData := filled_form; isLoading := true;
             results := None; error := empty_string |}, [req])
       /\ method req = lit "POST".
Proof.
  repeat (split; [ discriminate | ]).
  destruct (C2_valid_form_one_post filled_state)
    as (req & Hstart & _ & Hmethod & _); try discriminate.
  exists req. split; assumption.
Defined.

(** The text sent for [filled_form]. *)
Example body_of_filled_form :
  body (hd (mkRequest [] [] [] []) (snd (handleSubmit_start filled_state)))
  = lit "{" ++ quoted "url" ++ lit ":" ++ quoted "https://example.com/page"
    ++ lit "," ++ quoted "root_domain" ++ lit ":" ++ quoted "example.com"
    ++ lit "," ++ quoted "account_identifier" ++ lit ":" ++ quoted "my-website"
    ++ lit "," ++ quoted "language" ++ lit ":" ++ quoted "en"
    ++ lit "," ++ quoted "date_range" ++ lit ":30"
    ++ lit "," ++ quoted "start_date" ++ lit ":" ++ [0x22; 0x22]%N
    ++ lit "," ++ quoted "end_date" ++ lit ":" ++ [0x22; 0x22]%N ++ lit "}".
Proof. vm_compute. reflexivity. Qed.

(* ===================================================================== *)
(** * How a settled request is mapped to the state                        *)
(* ===================================================================== *)

(** The text that [data.error || 'Analysis failed'] evaluates to. *)
Lemma or_string_cases (e : option jsstring) :
  or_string e (lit "Analysis failed")
  = match e with
    | Some (c :: s) => c :: s
    | Some [] | None => lit "Analysis failed"
    end.
Proof. destruct e as [[ | c s] | ]; reflexivity. Qed.

Lemma or_string_nonempty (e : option jsstring) :
  or_string e (lit "Analysis failed") <> empty_string.
Proof. rewrite or_string_cases. destruct e as [[ | c s] | ]; discriminate. Qed.

(** The second half of [handleSubmit] on a body that parses: a response
    that is not [ok], or whose [success] is false, or that has no [data],
    is a failure with the text above; the remaining case stores the data. *)
Lemma handleSubmit_resume_parsed (ok : bool) (d : ApiResponse.t) (st : State) :
  handleSubmit_resume (Responded ok (Parsed d)) st
  = match ok, ApiResponse.success d, ApiResponse.data d with
    | true, true, Some payload =>
        {| formData := formData st; isLoading := false;
           results := Some payload; error := error st |}
    | _, _, _ =>
        {| formData := formData st; isLoading := false;
           results := results st;
           error := or_string (ApiResponse.error d) (lit "Analysis failed") |}
    end.
Proof.
  unfold handleSubmit_resume, try_block. cbn [await_fetch bind fst snd response_json].
  destruct ok, (ApiResponse.success d), (ApiResponse.data d); reflexivity.
Qed.

Lemma handleSubmit_resume_thrown (o : FetchOutcome) (e : Thrown) (st : State) :
  try_block o st = Throw e ->
  handleSubmit_resume o st
  = {| formData := formData st; isLoading := false;
       results := results st;
       error := match e with
                | ErrorInstance message => message
                | OtherValue => lit "An error occurred during analysis"
                end |}.
Proof. intros H. unfold handleSubmit_resume. rewrite H. reflexivity. Qed.

(** A rejected [fetch]: the text shown is the message of the rejection
    when it is an [Error], and the second fixed text of the source when the
    rejection carries anything else. *)
Lemma handleSubmit_fetch_rejected (st : State) (reason : Thrown) :
  all_required (formData st) ->
  fst (handleSubmit (Rejected reason) st)
  = {| formData := formData st; isLoading := false; results := None;
       error := match reason with
                | ErrorInstance message => message
                | OtherValue => lit "An error occurred during analysis"
                end |}.
Proof.
  intros Hreq. rewrite (handleSubmit_valid _ st Hreq). cbn [fst].
  apply (handleSubmit_resume_thrown _ reason). reflexivity.
Qed.

(** A body that parses, on a successful status, with [success] true and a
    payload: the payload is stored, and the error text stays empty. *)
Lemma handleSubmit_success (st : State) (d : ApiResponse.t) (r : ApiData.t) :
  all_required (formData st) ->
  ApiResponse.success d = true ->
  ApiResponse.data d = Some r ->
  fst (handleSubmit (Responded true (Parsed d)) st)
  = {| formData := formData st; isLoading := false; results := Some r;
       error := empty_string |}.
Proof.
  intros Hreq Hs Hd. rewrite (handleSubmit_valid _ st Hreq). cbn [fst].
  rewrite handleSubmit_resume_parsed, Hs, Hd. reflexivity.
Qed.

(** C3, as the code has it. For a response whose body parses to an
    [ApiResponse], and whose status is not a success or whose [success] flag
    is false, a run of [handleSubmit] on a valid form ends with [isLoading]
    cleared, no result, and an [error] text that is the [error] string of
    the body when it has one that is not empty, and 'Analysis failed'
    otherwise; this text is never empty, and when the body carries a
    non-empty [error] string the error region displays exactly it. *)
Theorem C3_failure_response (st : State) (ok : bool) (d : ApiResponse.t) :
  all_required (formData st) ->
  ok = false \/ ApiResponse.success d = false ->
  let st' := fst (handleSubmit (Responded ok (Parsed d)) st) in
  st' = {| formData := formData st; isLoading := false; results := None;
           error := match ApiResponse.error d with
                    | Some (c :: s) => c :: s
                    | Some [] | None => lit "Analysis failed"
                    end |}
  /\ error st' <> empty_string
  /\ forall e : jsstring,
       ApiResponse.error d = Some e -> e <> empty_string ->
       displayed_values (error_region st') = [StringChild e].
Proof.
  intros Hreq Hfail st'. subst st'.
  rewrite (handleSubmit_valid _ st Hreq). cbn [fst].
  rewrite handleSubmit_resume_parsed. cbn [formData results error].
  assert (Hst :
    match ok, ApiResponse.success d, ApiResponse.data d with
    | true, true, Some payload =>
        {| formData := formData st; isLoading := false;
           results := Some payload; error := empty_string |}
    | _, _, _ =>
        {| formData := formData st; isLoading := false; results := None;
           error := or_string (ApiResponse.error d) (lit "Analysis failed") |}
    end
    = {| formData := formData st; isLoading := false; results := None;
         error := or_string (ApiResponse.error d) (lit "Analysis failed") |}).
  { destruct Hfail as [-> | ->]; [ reflexivity | ].
    destruct ok; reflexivity. }
  rewrite Hst. cbn [error]. rewrite <- or_string_cases.
  split; [ reflexivity | ]. split; [ apply or_string_nonempty | ].
  intros e He Hne. rewrite He.
  destruct e as [ | c s]; [ contradiction Hne; reflexivity | ].
  reflexivity.
Qed.

Lemma C3_failure_response_witness :
  all_required (formData filled_state)
  /\ (true = false \/ ApiResponse.success refused = false)
  /\ error (fst (handleSubmit (Responded true (Parsed refused)) filled_state))
     = lit "Could not fetch the page".
Proof.
  split; [ exact filled_form_all_required | ].
  split; [ right; reflexivity | ].
  rewrite (proj1 (C3_failure_response filled_state true refused
                    filled_form_all_required (or_intror eq_refl))).
  reflexivity.
Defined.

(** C3, as stated, fails on a response that has a non-success status and a
    body that is not JSON: there is no error string of the server, and the
    text shown is not 'Analysis failed' but the parser's message. *)
Lemma C3_counterexample :
  response_ok bad_gateway = false
  /\ server_error bad_gateway = None
  /\ error (fst (handleSubmit bad_gateway filled_state))
     = lit "Unexpected token < in JSON at position 0"
  /\ error (fst (handleSubmit bad_gateway filled_state))
     <> lit "Analysis failed".
Proof. repeat split; try reflexivity. discriminate. Qed.

(** C4, as the code has it. For a response whose body is not JSON, whatever
    its status, a run of [handleSubmit] on a valid form ends with
    [isLoading] cleared, no result, and as [error] the message of the
    exception that the JSON parser raised; when that message is not empty
    the error region displays exactly it. *)
Theorem C4_malformed_body (st : State) (ok : bool) (message : jsstring) :
  all_required (formData st) ->
  let st' := fst (handleSubmit (Responded ok (Malformed message)) st) in
  st' = {| formData := formData st; isLoading := false; results := None;
           error := message |}
  /\ (message <> empty_string ->
      displayed_values (error_region st') = [StringChild message]).
Proof.
  intros Hreq st'. subst st'.
  rewrite (handleSubmit_valid _ st Hreq). cbn [fst].
  rewrite (handleSubmit_resume_thrown _ (ErrorInstance message))
    by reflexivity.
  cbn [formData results]. split; [ reflexivity | ].
  intros Hne. destruct message as [ | c s]; [ contradiction Hne; reflexivity | ].
  reflexivity.
Qed.

Lemma C4_malformed_body_witness :
  all_required (formData filled_state)
  /\ error (fst (handleSubmit
                   (Responded true (Malformed (lit "Unexpected end of JSON input")))
                   filled_state))
     = lit "Unexpected end of JSON input".
Proof.
  split; [ exact filled_form_all_required | ].
  rewrite (proj1 (C4_malformed_body filled_state true
                    (lit "Unexpected end of JSON input")
                    filled_form_all_required)).
  reflexivity.
Defined.

(** C4, as stated, fails on a successful status with an HTML body: the
    text shown is the parser's message, which is neither of the two fixed
    fallback texts of the source. *)
Lemma C4_counterexample :
  let st' :=
    fst (handleSubmit
           (Responded true (Malformed (lit "Unexpected token < in JSON at position 0")))
           filled_state) in
  error st' = lit "Unexpected token < in JSON at position 0"
  /\ error st' <> lit "Analysis failed"
  /\ error st' <> lit "An error occurred during analysis".
Proof. repeat split; try reflexivity; discriminate. Qed.

(** C5, as the code has it. For a response whose body parses, with
    [success] true and no [data], a run of [handleSubmit] on a valid form
    ends with [isLoading] cleared, no result, and an [error] text that is
    the [error] string of the body when it has one that is not empty, and
    'Analysis failed' otherwise; in particular it is 'Analysis failed' when
    the body has no [error] property. *)
Theorem C5_success_without_data (st : State) (ok : bool) (d : ApiResponse.t) :
  all_required (formData st) ->
  ApiResponse.success d = true ->
  ApiResponse.data d = None ->
  let st' := fst (handleSubmit (Responded ok (Parsed d)) st) in
  st' = {| formData := formData st; isLoading := false; results := None;
           error := match ApiResponse.error d with
                    | Some (c :: s) => c :: s
                    | Some [] | None => lit "Analysis failed"
                    end |}
  /\ error st' <> empty_string
  /\ (ApiResponse.error d = None -> error st' = lit "Analysis failed").
Proof.
  intros Hreq Hs Hd st'. subst st'.
  rewrite (handleSubmit_valid _ st Hreq). cbn [fst].
  rewrite handleSubmit_resume_parsed, Hs, Hd. cbn [formData results error].
  assert (Hst :
    (if ok then
       {| formData := formData st; isLoading := false; results := None;
          error := or_string (ApiResponse.error d) (lit "Analysis failed") |}
     else
       {| formData := formData st; isLoading := false; results := None;
          error := or_string (ApiResponse.error d) (lit "Analysis failed") |})
    = {| formData := formData st; isLoading := false; results := None;
         error := or_string (ApiResponse.error d) (lit "Analysis failed") |})
    by (destruct ok; reflexivity).
  rewrite Hst. cbn [error]. rewrite <- or_string_cases.
  split; [ reflexivity | ]. split; [ apply or_string_nonempty | ].
  intros ->. reflexivity.
Qed.

Lemma C5_success_without_data_witness :
  all_required (formData filled_state)
  /\ ApiResponse.success hollow = true
  /\ ApiResponse.data hollow = None
  /\ error (fst (handleSubmit (Responded true (Parsed hollow)) filled_state))
     = lit "Analysis failed".
Proof.
  split; [ exact filled_form_all_required | ].
  split; [ reflexivity | ]. split; [ reflexivity | ].
  rewrite (proj1 (C5_success_without_data filled_state true hollow
                    filled_form_all_required eq_refl eq_refl)).
  reflexivity.
Defined.

(** C5, as stated, fails on such a body: the text shown is the string of
    the server and not the fallback. *)
Lemma C5_counterexample :
  let st' :=
    fst (handleSubmit (Responded true (Parsed hollow_with_error)) filled_state) in
  ApiResponse.success hollow_with_error = true
  /\ ApiResponse.data hollow_with_error = None
  /\ error st' = lit "Quota exceeded"
  /\ error st' <> lit "Analysis failed".
Proof. repeat split; try reflexivity. discriminate. Qed.

(* ===================================================================== *)
(** * Invariants of the reachable worlds                                  *)
(* ===================================================================== *)

Lemma invariant_initial : invariant initial_world.
Proof.
  split; simpl.
  - reflexivity.
  - discriminate.
  - intros H. contradiction H. reflexivity.
Qed.

Lemma handleSubmit_start_cases (st : State) :
  handleSubmit_start st
  = (setError (lit "Please fill in all required fields") st, [])
  \/ exists req,
       handleSubmit_start st
       = ({| formData := formData st; isLoading := true;
             results := None; error := empty_string |}, [req]).
Proof.
  unfold handleSubmit_start.
  destruct (negb _ || negb _ || negb _).
  - left. reflexivity.
  - right. eexists. reflexivity.
Qed.

Lemma handleSubmit_resume_cases (o : FetchOutcome) (st : State) :
  (exists payload,
     handleSubmit_resume o st
     = {| formData := formData st; isLoading := false;
          results := Some payload; error := error st |})
  \/ exists message,
       handleSubmit_resume o st
       = {| formData := formData st; isLoading := false;
            results := results st; error := message |}.
Proof.
  destruct o as [reason | ok [d | message | reason]].
  - right. eexists. apply (handleSubmit_resume_thrown _ reason). reflexivity.
  - rewrite handleSubmit_resume_parsed.
    destruct ok, (ApiResponse.success d), (ApiResponse.data d);
      try (right; eexists; reflexivity).
    left. eexists. reflexivity.
  - right. eexists.
    apply (handleSubmit_resume_thrown _ (ErrorInstance message)). reflexivity.
  - right. eexists. apply (handleSubmit_resume_thrown _ reason). reflexivity.
Qed.

Lemma invariant_step (w w' : World) (ev : Event) :
  invariant w -> step w ev = Some w' -> invariant w'.
Proof.
  intros [Ha Hl Hs] Hstep. destruct ev as [name value | | o]; simpl in Hstep.
  - (* a change touches the form only *)
    injection Hstep as <-. split; simpl; assumption.
  - (* a click *)
    unfold submit_disabled in Hstep.
    destruct (isLoading (ui w)) eqn:Hld.
    + injection Hstep as <-. split; rewrite ?Hld; assumption.
    + destruct (handleSubmit_start_cases (ui w)) as [E | [req E]];
        rewrite E in Hstep; injection Hstep as <-; split; simpl;
        rewrite ?Hld.
      * lia.
      * discriminate.
      * intros _. right. reflexivity.
      * lia.
      * intros _. split; reflexivity.
      * intros H. contradiction H. reflexivity.
  - (* a request settles *)
    destruct (awaiting w) as [ | n] eqn:Hn; [ discriminate | ].
    injection Hstep as <-.
    destruct (isLoading (ui w)) eqn:Hld; [ | discriminate ].
    destruct (Hl eq_refl) as [Hres Herr].
    assert (n = 0%nat) by lia. subst n.
    destruct (handleSubmit_resume_cases o (ui w)) as [[payload E] | [message E]];
      split; cbn [ui awaiting]; rewrite E; cbn [isLoading results error];
      try reflexivity; try discriminate.
    + intros _. left. exact Herr.
    + intros H. contradiction H.
Qed.

Lemma invariant_run (evs : list Event) :
  forall w w', invariant w -> run w evs = Some w' -> invariant w'.
Proof.
  induction evs as [ | ev rest IH]; intros w w' Hinv Hrun; simpl in Hrun.
  - injection Hrun as <-. exact Hinv.
  - destruct (step w ev) as [w1 | ] eqn:Hstep; [ | discriminate ].
    apply (IH w1 w'); [ | exact Hrun ].
    apply (invariant_step w w1 ev); assumption.
Qed.

Lemma reachable_invariant (w : World) : reachable w -> invariant w.
Proof.
  intros [evs Hrun].
  apply (invariant_run evs initial_world w invariant_initial Hrun).
Qed.

(** C6, as the code has it. In every reachable world, while [isLoading]
    is set no result is held and the error text is empty; and whenever a
    result is held, the error text is empty or is the validation text, which
    a click on an incomplete form writes without dropping the result. *)
Theorem C6_loading_excludes_result_and_error (w : World) :
  reachable w ->
  (isLoading (ui w) = true ->
   results (ui w) = None /\ error (ui w) = empty_string)
  /\ (results (ui w) <> None ->
      error (ui w) = empty_string
      \/ error (ui w) = lit "Please fill in all required fields").
Proof.
  intros H. destruct (reachable_invariant w H) as [_ Hl Hs].
  split; assumption.
Qed.

Lemma stale_world_reachable : reachable stale_world.
Proof. exists stale_trace. reflexivity. Qed.

Lemma C6_loading_excludes_result_and_error_witness :
  reachable stale_world
  /\ (results (ui stale_world) <> None ->
      error (ui stale_world) = empty_string
      \/ error (ui stale_world) = lit "Please fill in all required fields").
Proof.
  split.
  - exists stale_trace. reflexivity.
  - apply (C6_loading_excludes_result_and_error stale_world).
    exists stale_trace. reflexivity.
Defined.

(** C6, as stated, fails in the world reached by [stale_trace]: a result
    and a non-empty error text are held together. *)
Lemma C6_counterexample :
  run initial_world stale_trace = Some stale_world
  /\ isLoading (ui stale_world) = false
  /\ results (ui stale_world) <> None
  /\ error (ui stale_world) <> empty_string.
Proof. repeat split; try reflexivity; discriminate. Qed.

(** C7. In every reachable world at most one request is outstanding, one
    is outstanding exactly while [isLoading] is set, and while it is set a
    click changes nothing: the state, the request log and the number of
    outstanding requests stay as they are. *)
Theorem C7_no_second_request_in_flight (w : World) :
  reachable w ->
  awaiting w <= 1
  /\ (awaiting w = 1 <-> isLoading (ui w) = true)
  /\ (isLoading (ui w) = true -> step w Click = Some w)
  /\ (awaiting w = 1 -> step w Click = Some w).
Proof.
  intros H. destruct (reachable_invariant w H) as [Ha _ _].
  assert (Hclick : isLoading (ui w) = true -> step w Click = Some w).
  { intros Hld. unfold step, submit_disabled. rewrite Hld. reflexivity. }
  destruct (isLoading (ui w)) eqn:Hld.
  - repeat split; try lia; auto.
  - repeat split; try lia; discriminate.
Qed.

Lemma C7_no_second_request_in_flight_witness :
  reachable loading_world
  /\ isLoading (ui loading_world) = true
  /\ step loading_world Click = Some loading_world.
Proof.
  split; [ exists loading_trace; reflexivity | ].
  split; [ reflexivity | ].
  apply (C7_no_second_request_in_flight loading_world).
  - exists loading_trace. reflexivity.
  - reflexivity.
Defined.

(* ===================================================================== *)
(** * The date range field                                                *)
(* ===================================================================== *)

Lemma or_number_parseInt (value : jsstring) :
  or_number (parseInt value) (of_Z 30)
  = match parseInt_math value with
    | None => of_Z 30
    | Some (_, 0%N) => of_Z 30
    | Some (false, m) => of_Z (Z.of_N m)
    | Some (true, m) => of_Z (- Z.of_N m)
    end.
Proof.
  unfold parseInt, or_number.
  destruct (parseInt_math value) as [[neg [ | m]] | ]; cbv beta iota;
    [ destruct neg; reflexivity | | reflexivity ].
  destruct neg; rewrite of_Z_truthy by lia; reflexivity.
Qed.

(** C8, as the code has it. The value stored for the text typed into the
    [date_range] control is the Number value of the integer that [parseInt]
    reads from it when it reads one that is not zero, and 30 otherwise: text
    without a leading integer gives 30, and so does text whose integer is
    zero. No bound is applied: 400 is stored as it is. The other fields of
    the form, and the rest of the state, are left as they were. *)
Theorem C8_date_range_coercion (value : jsstring) (st : State) :
  let st' := handleInputChange name_date_range value st in
  FormData.date_range (formData st')
  = match parseInt_math value with
    | None => of_Z 30
    | Some (_, 0%N) => of_Z 30
    | Some (false, m) => of_Z (Z.of_N m)
    | Some (true, m) => of_Z (- Z.of_N m)
    end
  /\ FormData.date_range
       (formData (handleInputChange name_date_range (lit "400") st))
     = of_Z 400
  /\ FormData.date_range
       (formData (handleInputChange name_date_range (lit "thirty") st))
     = of_Z 30
  /\ FormData.url (formData st') = FormData.url (formData st)
  /\ FormData.root_domain (formData st') = FormData.root_domain (formData st)
  /\ FormData.account_identifier (formData st')
     = FormData.account_identifier (formData st)
  /\ FormData.language (formData st') = FormData.language (formData st)
  /\ FormData.start_date (formData st') = FormData.start_date (formData st)
  /\ FormData.end_date (formData st') = FormData.end_date (formData st)
  /\ isLoading st' = isLoading st
  /\ results st' = results st
  /\ error st' = error st.
Proof.
  destruct st as [[u r a l d s e] ld rs er]. cbv zeta.
  unfold handleInputChange, setFormData, update_field.
  cbn [formData FormData.date_range FormData.url FormData.root_domain
       FormData.account_identifier FormData.language FormData.start_date
       FormData.end_date isLoading results error].
  split; [ apply or_number_parseInt | ].
  repeat split; reflexivity.
Qed.

(** C8, as stated, fails on the text 0: [parseInt] reads the integer zero
    from it, and the value stored is 30. *)
Lemma C8_counterexample :
  parseInt_math (lit "0") = Some (false, 0%N)
  /\ parseInt (lit "0") = S754_zero false
  /\ FormData.date_range
       (formData (handleInputChange name_date_range (lit "0") initial_state))
     = of_Z 30
  /\ of_Z 30 <> parseInt (lit "0").
Proof. repeat split; try reflexivity. discriminate. Qed.

(* ===================================================================== *)
(** * The summary of a result                                             *)
(* ===================================================================== *)

(** C9. When a result is held, the values that the state contributes to
    the summary are its [url], its [word_count] and its [language], each
    passed on as it is, in this order, and nothing else; the other leaves of
    the summary are the fixed labels. *)
Theorem C9_summary_shows_headline_fields (st : State) (r : ApiData.t) :
  results st = Some r ->
  displayed_values (results_region st)
  = [ StringChild (ApiData.url r);
      NumberChild (ApiData.word_count r);
      StringChild (ApiData.language r) ]
  /\ leaves (results_region st)
     = [ JSXText "Analysis Complete! 🎉";
         JSXText "URL Analyzed"; StringChild (ApiData.url r);
         JSXText "Word Count"; NumberChild (ApiData.word_count r);
         JSXText "Language"; StringChild (ApiData.language r);
         JSXText "View Full Results" ].
Proof.
  intros H. unfold displayed_values, results_region. rewrite H.
  split; reflexivity.
Qed.

Lemma C9_summary_shows_headline_fields_witness :
  results (setResults (Some sample_data) initial_state) = Some sample_data
  /\ displayed_values
       (results_region (setResults (Some sample_data) initial_state))
     = [ StringChild (lit "https://example.com/page");
         NumberChild (of_Z 812);
         StringChild (lit "en") ].
Proof.
  split.
  - reflexivity.
  - apply (C9_summary_shows_headline_fields
             (setResults (Some sample_data) initial_state) sample_data).
    reflexivity.
Defined.

(* ===================================================================== *)
(** * What a validation failure leaves alone                              *)
(* ===================================================================== *)

(** C10. When a required field is empty, a run of [handleSubmit] changes
    the [error] text and nothing else: the form, [isLoading] and [results]
    are as before, no request is issued, the summary region is rendered as
    before, and when a result was held its three values are still displayed
    while the error region displays the validation text. *)
Theorem C10_validation_failure_frame (st : State) (o : FetchOutcome) :
  missing_required (formData st) ->
  handleSubmit o st
  = ({| formData := formData st; isLoading := isLoading st;
        results := results st;
        error := lit "Please fill in all required fields" |}, [])
  /\ results_region (fst (handleSubmit o st)) = results_region st
  /\ displayed_values (error_region (fst (handleSubmit o st)))
     = [ StringChild (lit "Please fill in all required fields") ]
  /\ forall r : ApiData.t,
       results st = Some r ->
       displayed_values (results_region (fst (handleSubmit o st)))
       = [ StringChild (ApiData.url r);
           NumberChild (ApiData.word_count r);
           StringChild (ApiData.language r) ].
Proof.
  intros H. unfold handleSubmit.
  rewrite (handleSubmit_start_missing st H). cbn [fst].
  repeat split.
  intros r Hr. unfold displayed_values, results_region, setError.
  cbn [results]. rewrite Hr. reflexivity.
Qed.

Lemma C10_validation_failure_frame_witness :
  missing_required (formData (setResults (Some sample_data) initial_state))
  /\ results
       (fst (handleSubmit (Rejected OtherValue)
               (setResults (Some sample_data) initial_state)))
     = Some sample_data.
Proof.
  split.
  - left. reflexivity.
  - rewrite (proj1 (C10_validation_failure_frame
                      (setResults (Some sample_data) initial_state)
                      (Rejected OtherValue)
                      (or_introl eq_refl))).
    reflexivity.
Defined.

(* ===================================================================== *)
(** * Further properties of [handleInputChange]                           *)
(* ===================================================================== *)

(** X1. [handleInputChange] builds the object that the spread with a
    computed key builds: the properties of the new form are those of the
    old one with the property named by the control replaced, in place, by
    the typed text (for [date_range], by its coerced number); no key is
    added and the order of the keys is kept. *)
Theorem X1_update_is_object_spread (name : FieldName) (value : jsstring)
  (st : State) :
  own_properties (formData (handleInputChange name value st))
  = object_with (own_properties (formData st)) (name_attr name)
      (changed_value (name_attr name) value)
  /\ map fst (own_properties (formData (handleInputChange name value st)))
     = map fst (own_properties (formData st)).
Proof.
  destruct st as [[u r a l d s e] ld rs er].
  destruct name; split; reflexivity.
Qed.

(** X2. The controls are controlled by the form: after a change, the
    control that was typed into shows the typed text (the [date_range]
    control shows the coerced number), every other control shows what it
    showed before, and each control shows the value that the form holds
    under the control's name. *)
Theorem X2_controls_follow_the_form (name : FieldName) (value : jsstring)
  (st : State) :
  let st' := handleInputChange name value st in
  control_value name st' = changed_value (name_attr name) value
  /\ (forall other : FieldName,
        other <> name -> control_value other st' = control_value other st)
  /\ (forall any : FieldName,
        get_property (own_properties (formData st')) (name_attr any)
        = Some (control_value any st')).
Proof.
  destruct st as [[u r a l d s e] ld rs er]. cbv zeta.
  split; [ destruct name; reflexivity | ].
  split.
  - intros other Hne.
    destruct name, other; try reflexivity; contradiction Hne; reflexivity.
  - intros any. destruct name, any; reflexivity.
Qed.

Lemma X2_controls_follow_the_form_witness :
  name_language <> name_url
  /\ control_value name_url
       (handleInputChange name_url (lit "https://example.com/") initial_state)
     = JSString (lit "https://example.com/")
  /\ control_value name_language
       (handleInputChange name_url (lit "https://example.com/") initial_state)
     = JSString (lit "en").
Proof.
  split; [ discriminate | ].
  destruct (X2_controls_follow_the_form name_url (lit "https://example.com/")
              initial_state) as (Hsame & Hother & _).
  split.
  - rewrite Hsame. reflexivity.
  - rewrite (Hother name_language) by discriminate. reflexivity.
Defined.

(** X3. Changes compose as writes to independent cells: of two changes
    to the same control only the later one counts, and changes to different
    controls can be made in either order. *)
Theorem X3_changes_compose (n1 n2 : FieldName) (v1 v2 : jsstring)
  (st : State) :
  handleInputChange n1 v2 (handleInputChange n1 v1 st)
  = handleInputChange n1 v2 st
  /\ (n1 <> n2 ->
      handleInputChange n1 v1 (handleInputChange n2 v2 st)
      = handleInputChange n2 v2 (handleInputChange n1 v1 st)).
Proof.
  destruct st as [[u r a l d s e] ld rs er].
  split.
  - destruct n1; reflexivity.
  - intros Hne.
    destruct n1, n2; try reflexivity; contradiction Hne; reflexivity.
Qed.

Lemma X3_changes_compose_witness :
  name_url <> name_date_range
  /\ handleInputChange name_url (lit "a")
       (handleInputChange name_date_range (lit "7") initial_state)
     = handleInputChange name_date_range (lit "7")
         (handleInputChange name_url (lit "a") initial_state).
Proof.
  split; [ discriminate | ].
  apply (X3_changes_compose name_url name_date_range (lit "a") (lit "7")
           initial_state).
  discriminate.
Defined.

(** Induction over the reachable worlds. *)
Lemma reachable_induction (P : World -> Prop) :
  P initial_world ->
  (forall w ev w', P w -> step w ev = Some w' -> P w') ->
  forall w, reachable w -> P w.
Proof.
  intros Hinit Hstep w [evs Hrun].
  revert Hrun. generalize initial_world, Hinit. clear Hinit.
  induction evs as [ | ev rest IH]; intros w0 H0 Hrun; simpl in Hrun.
  - injection Hrun as <-. exact H0.
  - destruct (step w0 ev) as [w1 | ] eqn:E; [ | discriminate ].
    apply (IH w1); [ | exact Hrun ].
    apply (Hstep w0 ev w1); assumption.
Qed.

Lemma handleSubmit_start_formData (st : State) :
  formData (fst (handleSubmit_start st)) = formData st.
Proof.
  destruct (handleSubmit_start_cases st) as [E | [req E]]; rewrite E;
    reflexivity.
Qed.

Lemma handleSubmit_resume_formData (o : FetchOutcome) (st : State) :
  formData (handleSubmit_resume o st) = formData st.
Proof.
  destruct (handleSubmit_resume_cases o st) as [[r E] | [m E]]; rewrite E;
    reflexivity.
Qed.

Lemma step_formData (w w' : World) (ev : Event) :
  step w ev = Some w' ->
  formData (ui w') = formData (ui w)
  \/ exists name value,
       ev = Change name value
       /\ formData (ui w') = update_field name value (formData (ui w)).
Proof.
  destruct ev as [name value | | o]; simpl; intros H.
  - injection H as <-. right. exists name, value. split; reflexivity.
  - destruct (submit_disabled (ui w)).
    + injection H as <-. left. reflexivity.
    + pose proof (handleSubmit_start_formData (ui w)) as Hf.
      destruct (handleSubmit_start (ui w)) as [st reqs].
      injection H as <-. left. exact Hf.
  - destruct (awaiting w); [ discriminate | ].
    injection H as <-. left. apply handleSubmit_resume_formData.
Qed.

Lemma or_number_truthy (a : number) :
  truthy_number (or_number a (of_Z 30)) = true.
Proof.
  unfold or_number. destruct (truthy_number a) eqn:E; [ exact E | ].
  reflexivity.
Qed.

(** X4. In every reachable world the stored [date_range] is truthy: it
    is never [NaN] and never zero, whatever was typed. *)
Theorem X4_date_range_never_falsy (w : World) :
  reachable w ->
  truthy_number (FormData.date_range (formData (ui w))) = true
  /\ FormData.date_range (formData (ui w)) <> NaN
  /\ FormData.date_range (formData (ui w)) <> of_Z 0.
Proof.
  intros H.
  assert (Ht : truthy_number (FormData.date_range (formData (ui w))) = true).
  { revert w H. apply reachable_induction.
    - reflexivity.
    - intros w ev w' IH Hstep.
      destruct (step_formData w w' ev Hstep) as [-> | (name & value & _ & ->)];
        [ exact IH | ].
      destruct (formData (ui w)) as [u r a l d s e]. simpl in IH.
      destruct name; try exact IH.
      apply or_number_truthy. }
  split; [ exact Ht | ].
  split; intros E; rewrite E in Ht; discriminate.
Qed.

Lemma X4_date_range_never_falsy_witness :
  reachable stale_world
  /\ FormData.date_range (formData (ui stale_world)) <> NaN.
Proof.
  split; [ exists stale_trace; reflexivity | ].
  apply (X4_date_range_never_falsy stale_world).
  exists stale_trace. reflexivity.
Defined.

(** ** Typing a number in decimal *)

Section Decimal.

Local Open Scope N_scope.

Lemma radix_digit_decimal (d : N) :
  d < 10 -> radix_digit 10 (digit_unit d) = Some d.
Proof.
  intros H. unfold radix_digit, digit_value, digit_unit.
  replace ((48 <=? 48 + d) && (48 + d <=? 57)) with true
    by (symmetry; apply andb_true_intro; split; apply N.leb_le; lia).
  replace (48 + d - 48) with d by lia.
  replace (d <? 10) with true by (symmetry; apply N.ltb_lt; lia).
  reflexivity.
Qed.

Lemma digits_prefix_decimal (ds : list N) :
  Forall (fun d => d < 10) ds ->
  digits_prefix 10 (map digit_unit ds) = ds.
Proof.
  induction 1 as [ | d ds Hd _ IH]; simpl; [ reflexivity | ].
  rewrite (radix_digit_decimal d Hd), IH. reflexivity.
Qed.

Lemma digit_unit_cases (d : N) :
  d < 10 ->
  d = 0 \/ d = 1 \/ d = 2 \/ d = 3 \/ d = 4 \/ d = 5 \/ d = 6 \/ d = 7
  \/ d = 8 \/ d = 9.
Proof. lia. Qed.

(** A string of decimal digits has nothing for [parseInt] to strip. *)
Lemma parseInt_math_digits (neg : bool) (ds : list N) :
  ds <> [] ->
  Forall (fun d => d < 10) ds ->
  parseInt_math ((if neg then [0x2D] else []) ++ map digit_unit ds)
  = Some (neg, mathInt 10 ds).
Proof.
  intros Hne Hall.
  assert (Hplain :
    forall s : jsstring,
      s = map digit_unit ds ->
      trim_start s = s /\ strip_sign s = (false, s)
      /\ strip_hex_prefix s = (10, s)).
  { intros s ->. destruct Hall as [ | d0 ds0 Hd0 Hall0];
      [ contradiction Hne; reflexivity | ].
    assert (H0 : trim_start (map digit_unit (d0 :: ds0))
                 = map digit_unit (d0 :: ds0)
                 /\ strip_sign (map digit_unit (d0 :: ds0))
                    = (false, map digit_unit (d0 :: ds0))).
    { destruct (digit_unit_cases d0 Hd0)
        as [-> | [-> | [-> | [-> | [-> | [-> | [-> | [-> | [-> | ->]]]]]]]]];
        split; reflexivity. }
    destruct H0 as [Ht Hs]. split; [ exact Ht | ]. split; [ exact Hs | ].
    destruct Hall0 as [ | d1 ds1 Hd1 _]; [ reflexivity | ].
    destruct (digit_unit_cases d1 Hd1)
      as [-> | [-> | [-> | [-> | [-> | [-> | [-> | [-> | [-> | ->]]]]]]]]];
      simpl map; unfold strip_hex_prefix;
      replace (digit_unit _ =? 120) with false by reflexivity;
      replace (digit_unit _ =? 88) with false by reflexivity;
      rewrite andb_false_r; reflexivity. }
  destruct (Hplain _ eq_refl) as (Ht & Hs & Hx).
  unfold parseInt_math.
  destruct neg; simpl app.
  - change (trim_start (45 :: map digit_unit ds))
      with (45 :: map digit_unit ds).
    change (strip_sign (45 :: map digit_unit ds))
      with (true, map digit_unit ds).
    cbv beta iota. rewrite Hx. cbv beta iota.
    rewrite (digits_prefix_decimal ds Hall).
    destruct ds; [ contradiction Hne | ]; reflexivity.
  - rewrite Ht, Hs. cbv beta iota. rewrite Hx. cbv beta iota.
    rewrite (digits_prefix_decimal ds Hall).
    destruct ds; [ contradiction Hne | ]; reflexivity.
Qed.

End Decimal.

Lemma mathInt_snoc (ds : list N) (d : N) :
  mathInt 10 (ds ++ [d]) = (mathInt 10 ds * 10 + d)%N.
Proof. unfold mathInt. rewrite fold_left_app. reflexivity. Qed.

(** [decimal_fuel] writes, in front of what it is given, the digits of its
    argument, most significant first. *)
Lemma decimal_fuel_digits (fuel : nat) :
  forall (n : Z) (acc : jsstring),
    (0 <= n < 2 ^ Z.of_nat (S fuel))%Z ->
    exists ds : list N,
      ds <> []
      /\ Forall (fun d => (d < 10)%N) ds
      /\ mathInt 10 ds = Z.to_N n
      /\ decimal_fuel (S fuel) n acc = map digit_unit ds ++ acc.
Proof.
  assert (Hlast : forall n : Z,
             (0 <= n)%Z ->
             Z.to_N (48 + n mod 10) = digit_unit (Z.to_N (n mod 10))
             /\ (Z.to_N (n mod 10) < 10)%N).
  { intros n Hn. unfold digit_unit.
    pose proof (Z.mod_pos_bound n 10 ltac:(lia)). split; lia. }
  induction fuel as [ | fuel IH]; intros n acc Hn;
    cbn [decimal_fuel]; destruct (Hlast n ltac:(lia)) as [Hd Hlt];
    destruct (Z.ltb_spec n 10) as [Hsmall | Hbig].
  - exists [Z.to_N (n mod 10)].
    rewrite Z.mod_small in * by lia.
    split; [ discriminate | ].
    split; [ constructor; [ lia | constructor ] | ].
    split; [ unfold mathInt; cbn [fold_left]; lia | ].
    rewrite Hd. reflexivity.
  - change (2 ^ Z.of_nat 1)%Z with 2%Z in Hn. lia.
  - exists [Z.to_N (n mod 10)].
    rewrite Z.mod_small in * by lia.
    split; [ discriminate | ].
    split; [ constructor; [ lia | constructor ] | ].
    split; [ unfold mathInt; cbn [fold_left]; lia | ].
    rewrite Hd. reflexivity.
  - assert (Hq : (0 <= n / 10 < 2 ^ Z.of_nat (S fuel))%Z).
    { split; [ apply Z.div_pos; lia | ].
      apply Z.div_lt_upper_bound; [ lia | ].
      replace (Z.of_nat (S (S fuel))) with (Z.of_nat (S fuel) + 1)%Z in Hn
        by lia.
      rewrite Z.pow_add_r in Hn by lia.
      assert (0 < 2 ^ Z.of_nat (S fuel))%Z by (apply Z.pow_pos_nonneg; lia).
      lia. }
    destruct (IH (n / 10)%Z (Z.to_N (48 + n mod 10) :: acc) Hq)
      as (ds & Hne & Hall & Hval & Hout).
    exists (ds ++ [Z.to_N (n mod 10)]).
    split; [ destruct ds; discriminate | ].
    split; [ apply Forall_app; split; [ exact Hall | ];
             constructor; [ exact Hlt | constructor ] | ].
    split.
    + rewrite mathInt_snoc, Hval.
      pose proof (Z.div_mod n 10 ltac:(lia)).
      pose proof (Z.mod_pos_bound n 10 ltac:(lia)).
      assert (0 <= n / 10)%Z by (apply Z.div_pos; lia).
      lia.
    + change (decimal_fuel (S fuel) (n / 10) (Z.to_N (48 + n mod 10) :: acc)
              = map digit_unit (ds ++ [Z.to_N (n mod 10)]) ++ acc).
      rewrite Hout, map_app, <- app_assoc, Hd. reflexivity.
Qed.

Lemma decimal_digits (n : Z) :
  (0 < n)%Z ->
  exists ds : list N,
    ds <> [] /\ Forall (fun d => (d < 10)%N) ds
    /\ mathInt 10 ds = Z.to_N n /\ decimal n = map digit_unit ds.
Proof.
  intros Hn. unfold decimal.
  destruct (decimal_fuel_digits (Z.to_nat (Z.log2 n)) n []) as
    (ds & H1 & H2 & H3 & H4).
  - split; [ lia | ].
    pose proof (Z.log2_nonneg n).
    replace (Z.of_nat (S (Z.to_nat (Z.log2 n)))) with (Z.succ (Z.log2 n))
      by lia.
    apply Z.log2_spec. exact Hn.
  - exists ds. rewrite app_nil_r in H4. repeat split; assumption.
Qed.

(** X5. Typing the decimal digits of a positive integer into the
    [date_range] control stores the Number value of that integer, and
    typing them after a minus sign stores the Number value of its opposite:
    neither the advisory maximum nor the advisory minimum of the control is
    applied by the handler. *)
Theorem X5_decimal_text_is_stored (n : Z) (st : State) :
  (0 < n)%Z ->
  FormData.date_range
    (formData (handleInputChange name_date_range (decimal n) st))
  = of_Z n
  /\ FormData.date_range
       (formData
          (handleInputChange name_date_range (lit "-" ++ decimal n) st))
     = of_Z (- n).
Proof.
  intros Hn.
  destruct (decimal_digits n Hn) as (ds & Hne & Hall & Hval & Hdec).
  destruct st as [[u r a l d s e] ld rs er].
  unfold handleInputChange, setFormData, update_field.
  cbn [formData FormData.date_range].
  rewrite !or_number_parseInt, Hdec.
  pose proof (parseInt_math_digits false ds Hne Hall) as Hpos.
  pose proof (parseInt_math_digits true ds Hne Hall) as Hneg.
  cbn [app] in Hpos, Hneg.
  change (lit "-" ++ map digit_unit ds) with (0x2D%N :: map digit_unit ds).
  rewrite Hpos, Hneg, Hval.
  destruct (Z.to_N n) as [ | p] eqn:Hp; [ lia | ].
  rewrite <- Hp, Z2N.id by lia. split; reflexivity.
Qed.

Lemma X5_decimal_text_is_stored_witness :
  (0 < 400)%Z
  /\ FormData.date_range
       (formData (handleInputChange name_date_range (decimal 400) initial_state))
     = of_Z 400.
Proof.
  split; [ reflexivity | ].
  apply (X5_decimal_text_is_stored 400 initial_state). reflexivity.
Defined.

(* ===================================================================== *)
(** * Further properties of [handleSubmit]                                *)
(* ===================================================================== *)

(** X6. The [finally] clause: whatever the request settles to, the
    second half of [handleSubmit] ends with [isLoading] cleared; and no
    part of [handleSubmit] ever writes to the form. *)
Theorem X6_loading_always_cleared (o : FetchOutcome) (st : State) :
  isLoading (handleSubmit_resume o st) = false
  /\ formData (handleSubmit_resume o st) = formData st
  /\ formData (fst (handleSubmit o st)) = formData st
  /\ (all_required (formData st) ->
      isLoading (fst (handleSubmit o st)) = false).
Proof.
  assert (Hres : forall s, isLoading (handleSubmit_resume o s) = false
                           /\ formData (handleSubmit_resume o s) = formData s).
  { intros s.
    destruct (handleSubmit_resume_cases o s) as [[r E] | [m E]]; rewrite E;
      split; reflexivity. }
  split; [ apply Hres | ]. split; [ apply Hres | ].
  split.
  - unfold handleSubmit.
    destruct (handleSubmit_start_cases st) as [E | [req E]]; rewrite E;
      [ reflexivity | ].
    cbn [fst]. rewrite (proj2 (Hres _)). reflexivity.
  - intros Hreq. rewrite (handleSubmit_valid o st Hreq). cbn [fst].
    apply Hres.
Qed.

Lemma X6_loading_always_cleared_witness :
  all_required (formData filled_state)
  /\ isLoading (fst (handleSubmit (Rejected OtherValue) filled_state)) = false.
Proof.
  split; [ exact filled_form_all_required | ].
  apply (X6_loading_always_cleared (Rejected OtherValue) filled_state).
  exact filled_form_all_required.
Defined.

(** X7. A run of [handleSubmit] on a valid form ends with a result held
    exactly when the request settled to a response with a success status
    whose body parses, has [success] true and has a [data] payload, and the
    result held is then that payload; whenever a result is held at the end
    of the run, the error text is empty. *)
Theorem X7_result_only_from_success (o : FetchOutcome) (st : State)
  (r : ApiData.t) :
  all_required (formData st) ->
  (results (fst (handleSubmit o st)) = Some r
   <-> exists d : ApiResponse.t,
         o = Responded true (Parsed d)
         /\ ApiResponse.success d = true
         /\ ApiResponse.data d = Some r)
  /\ (results (fst (handleSubmit o st)) <> None ->
      error (fst (handleSubmit o st)) = empty_string).
Proof.
  intros Hreq. rewrite (handleSubmit_valid o st Hreq). cbn [fst].
  set (st1 := {| formData := formData st; isLoading := true;
                 results := None; error := empty_string |}).
  assert (Hthrown : forall e, try_block o st1 = Throw e ->
                              results (handleSubmit_resume o st1) = None).
  { intros e He. rewrite (handleSubmit_resume_thrown o e st1 He). reflexivity. }
  destruct o as [reason | ok [d | message | reason]].
  - rewrite (Hthrown reason eq_refl).
    split; [ split | intros H; contradiction H; reflexivity ].
    + discriminate.
    + intros (d & Hd & _). discriminate.
  - rewrite handleSubmit_resume_parsed.
    destruct ok, (ApiResponse.success d) eqn:Hs, (ApiResponse.data d) eqn:Hd;
      cbn [results error st1];
      (split;
       [ split;
         [ intros H; try discriminate
         | intros (d' & Ho & Hs' & Hd'); try discriminate;
           injection Ho as <-; congruence ]
       | intros H; try reflexivity; contradiction H; reflexivity ]).
    injection H as <-. exists d. auto.
  - rewrite (Hthrown (ErrorInstance message) eq_refl).
    split; [ split | intros H; contradiction H; reflexivity ].
    + discriminate.
    + intros (d & Hd & _). discriminate.
  - rewrite (Hthrown reason eq_refl).
    split; [ split | intros H; contradiction H; reflexivity ].
    + discriminate.
    + intros (d & Hd & _). discriminate.
Qed.

Lemma X7_result_only_from_success_witness :
  all_required (formData filled_state)
  /\ results
       (fst (handleSubmit
               (Responded true
                  (Parsed {| ApiResponse.success := true;
                             ApiResponse.data := Some sample_data;
                             ApiResponse.error := None |}))
               filled_state))
     = Some sample_data.
Proof.
  split; [ exact filled_form_all_required | ].
  apply (proj1 (X7_result_only_from_success _ filled_state sample_data
                  filled_form_all_required)).
  eexists. repeat split.
Defined.

(** X8. When the request fails before a body is parsed, because [fetch]
    rejects or because the body cannot be read, a run of [handleSubmit] on a
    valid form ends with [isLoading] cleared, no result, and as error text
    the message of the failure when the failure is an [Error], and the fixed
    text 'An error occurred during analysis' when it is anything else. *)
Theorem X8_transport_failure (st : State) (ok : bool) (reason : Thrown) :
  all_required (formData st) ->
  let shown :=
    match reason with
    | ErrorInstance message => message
    | OtherValue => lit "An error occurred during analysis"
    end in
  fst (handleSubmit (Rejected reason) st)
  = {| formData := formData st; isLoading := false; results := None;
       error := shown |}
  /\ fst (handleSubmit (Responded ok (ReadFailed reason)) st)
     = {| formData := formData st; isLoading := false; results := None;
          error := shown |}
  /\ snd (handleSubmit (Rejected reason) st)
     = snd (handleSubmit (Responded ok (ReadFailed reason)) st).
Proof.
  intros Hreq shown. rewrite !(handleSubmit_valid _ st Hreq). cbn [fst snd].
  split; [ apply (handleSubmit_resume_thrown _ reason); reflexivity | ].
  split; [ apply (handleSubmit_resume_thrown _ reason); reflexivity | ].
  reflexivity.
Qed.

Lemma X8_transport_failure_witness :
  all_required (formData filled_state)
  /\ error (fst (handleSubmit (Rejected (ErrorInstance (lit "Failed to fetch")))
                   filled_state))
     = lit "Failed to fetch".
Proof.
  split; [ exact filled_form_all_required | ].
  rewrite (proj1 (X8_transport_failure filled_state true
                    (ErrorInstance (lit "Failed to fetch"))
                    filled_form_all_required)).
  reflexivity.
Defined.

(** X9. What is typed while a request is outstanding is kept, and does
    not change what the settled request does to the state: a change followed
    by the settling leads to the same world as the settling followed by the
    change. *)
Theorem X9_edits_in_flight_commute (w : World) (name : FieldName)
  (value : jsstring) (o : FetchOutcome) :
  handleSubmit_resume o (handleInputChange name value (ui w))
  = handleInputChange name value (handleSubmit_resume o (ui w))
  /\ run w [Change name value; Settle o] = run w [Settle o; Change name value].
Proof.
  assert (H : forall s,
             handleSubmit_resume o (handleInputChange name value s)
             = handleInputChange name value (handleSubmit_resume o s)).
  { intros s.
    destruct o as [reason | ok [d | message | reason]].
    - rewrite (handleSubmit_resume_thrown (Rejected reason) reason s eq_refl).
      apply (handleSubmit_resume_thrown _ reason). reflexivity.
    - rewrite !handleSubmit_resume_parsed.
      destruct ok, (ApiResponse.success d), (ApiResponse.data d);
        reflexivity.
    - rewrite (handleSubmit_resume_thrown (Responded ok (Malformed message))
                 (ErrorInstance message) s eq_refl).
      apply (handleSubmit_resume_thrown _ (ErrorInstance message)).
      reflexivity.
    - rewrite (handleSubmit_resume_thrown (Responded ok (ReadFailed reason))
                 reason s eq_refl).
      apply (handleSubmit_resume_thrown _ reason). reflexivity. }
  split; [ apply H | ].
  simpl. destruct (awaiting w); [ reflexivity | ].
  simpl. rewrite H. reflexivity.
Qed.

(* ===================================================================== *)
(** * Further properties of the traces                                    *)
(* ===================================================================== *)

Lemma handleSubmit_start_requests (st : State) :
  snd (handleSubmit_start st) = []
  \/ all_required (formData st)
     /\ snd (handleSubmit_start st)
        = [ {| request_url := endpoint;
               method := lit "POST";
               headers := [(lit "Content-Type", lit "application/json")];
               body := JSON_stringify (formData st) |} ].
Proof.
  unfold handleSubmit_start.
  destruct (truthy_string (FormData.url (formData st))) eqn:Hu;
    [ | left; reflexivity ].
  destruct (truthy_string (FormData.root_domain (formData st))) eqn:Hr;
    [ | left; reflexivity ].
  destruct (truthy_string (FormData.account_identifier (formData st))) eqn:Ha;
    [ | left; reflexivity ].
  right. split; [ | reflexivity ].
  repeat split; apply truthy_string_nonempty; assumption.
Qed.

(** What one event does to the log. *)
Lemma step_sent (w w' : World) (ev : Event) :
  step w ev = Some w' ->
  (sent w' = sent w /\ awaiting w' + (if is_settle ev then 1 else 0) = awaiting w)
  \/ ev = Click
     /\ isLoading (ui w) = false
     /\ all_required (formData (ui w))
     /\ sent w' = sent w
                  ++ [ {| request_url := endpoint;
                          method := lit "POST";
                          headers := [(lit "Content-Type", lit "application/json")];
                          body := JSON_stringify (formData (ui w)) |} ]
     /\ awaiting w' = awaiting w + 1.
Proof.
  destruct ev as [name value | | o]; simpl; intros H.
  - injection H as <-. left. simpl. split; [ reflexivity | lia ].
  - unfold submit_disabled in H. destruct (isLoading (ui w)) eqn:Hld.
    + injection H as <-. left. split; [ reflexivity | lia ].
    + destruct (handleSubmit_start_requests (ui w)) as [E | [Hreq E]];
        destruct (handleSubmit_start (ui w)) as [st reqs]; simpl in E;
        subst reqs; injection H as <-; simpl.
      * left. rewrite app_nil_r. split; [ reflexivity | lia ].
      * right. repeat split; try reflexivity; apply Hreq.
  - destruct (awaiting w) as [ | n]; [ discriminate | ].
    injection H as <-. left. simpl. split; [ reflexivity | lia ].
Qed.



(** X11. A request is issued by nothing but a click on the enabled button
    over a form whose required fields are filled in: an event that changes
    the log is such a click, and it adds one request, carrying the form as it
    stands at the click.  Typing and settling never send anything, and no
    request is sent again. *)
Theorem X11_only_valid_click_sends (w w' : World) (ev : Event) :
  step w ev = Some w' ->
  sent w' <> sent w ->
  ev = Click
  /\ isLoading (ui w) = false
  /\ all_required (formData (ui w))
  /\ sent w' = sent w
               ++ [ {| request_url := endpoint;
                       method := lit "POST";
                       headers := [(lit "Content-Type", lit "application/json")];
                       body := JSON_stringify (formData (ui w)) |} ].
Proof.
  intros Hstep Hne.
  destruct (step_sent w w' ev Hstep)
    as [[Hsent _] | (Hev & Hld & Hreq & Hsent & _)].
  - contradiction.
  - repeat split; try assumption; apply Hreq.
Qed.

Lemma X11_only_valid_click_sends_witness :
  step {| ui := filled_state; sent := []; awaiting := 0 |} Click
  = Some loading_world
  /\ sent loading_world <> []
  /\ all_required (formData filled_state).
Proof.
  split; [ reflexivity | ]. split; [ discriminate | ].
  apply (X11_only_valid_click_sends
           {| ui := filled_state; sent := []; awaiting := 0 |}
           loading_world Click).
  - reflexivity.
  - discriminate.
Defined.

(** X12. Every request in the log of a reachable world is a POST to the
    analysis endpoint with the JSON content type, and its body is the JSON
    text of a form whose three required fields are not empty. *)
Theorem X12_every_request_is_valid (w : World) :
  reachable w -> Forall analysis_request (sent w).
Proof.
  revert w. apply reachable_induction.
  - constructor.
  - intros w ev w' IH Hstep.
    destruct (step_sent w w' ev Hstep)
      as [[-> _] | (_ & _ & Hreq & -> & _)]; [ exact IH | ].
    apply Forall_app. split; [ exact IH | ].
    constructor; [ | constructor ].
    repeat split. exists (formData (ui w)). split; [ exact Hreq | reflexivity ].
Qed.

Lemma X12_every_request_is_valid_witness :
  reachable stale_world /\ Forall analysis_request (sent stale_world).
Proof.
  split; [ exists stale_trace; reflexivity | ].
  apply (X12_every_request_is_valid stale_world).
  exists stale_trace. reflexivity.
Defined.

(** Where a held result comes from, one event at a time. *)
Lemma step_results (w w' : World) (ev : Event) (r : ApiData.t) :
  step w ev = Some w' ->
  results (ui w') = Some r ->
  results (ui w) = Some r
  \/ exists d : ApiResponse.t,
       ev = Settle (Responded true (Parsed d))
       /\ ApiResponse.success d = true
       /\ ApiResponse.data d = Some r.
Proof.
  destruct ev as [name value | | o]; simpl; intros H Hr.
  - injection H as <-. left. exact Hr.
  - destruct (submit_disabled (ui w)).
    + injection H as <-. left. exact Hr.
    + destruct (handleSubmit_start_cases (ui w)) as [E | [req E]];
        rewrite E in H; injection H as <-; simpl in Hr.
      * left. exact Hr.
      * discriminate.
  - destruct (awaiting w); [ discriminate | ].
    injection H as <-. cbn [ui] in Hr.
    destruct o as [reason | ok [d | message | reason]].
    + rewrite (handleSubmit_resume_thrown (Rejected reason) reason (ui w)
                 eq_refl) in Hr.
      left. exact Hr.
    + rewrite handleSubmit_resume_parsed in Hr.
      destruct ok, (ApiResponse.success d) eqn:Hs, (ApiResponse.data d) eqn:Hd;
        cbn [results] in Hr; try (left; exact Hr).
      right. exists d. injection Hr as <-. auto.
    + rewrite (handleSubmit_resume_thrown (Responded ok (Malformed message))
                 (ErrorInstance message) (ui w) eq_refl) in Hr.
      left. exact Hr.
    + rewrite (handleSubmit_resume_thrown (Responded ok (ReadFailed reason))
                 reason (ui w) eq_refl) in Hr.
      left. exact Hr.
Qed.

(** X13. A result that is held, and so displayed, is always the payload
    of a response that settled along the trace: a response with a success
    status whose body has [success] true and carries that payload. *)
Theorem X13_result_comes_from_a_response (evs : list Event) (w : World)
  (r : ApiData.t) :
  run initial_world evs = Some w ->
  results (ui w) = Some r ->
  exists d : ApiResponse.t,
    In (Settle (Responded true (Parsed d))) evs
    /\ ApiResponse.success d = true
    /\ ApiResponse.data d = Some r.
Proof.
  intros Hrun Hr.
  assert (Hgen : forall l w0,
             run w0 l = Some w ->
             results (ui w0) = Some r
             \/ exists d : ApiResponse.t,
                  In (Settle (Responded true (Parsed d))) l
                  /\ ApiResponse.success d = true
                  /\ ApiResponse.data d = Some r).
  { induction l as [ | ev rest IH]; intros w0 Hl; simpl in Hl.
    - injection Hl as ->. left. exact Hr.
    - destruct (step w0 ev) as [w1 | ] eqn:Hstep; [ | discriminate ].
      destruct (IH w1 Hl) as [H1 | (d & Hin & Hs & Hd)].
      + destruct (step_results w0 w1 ev r Hstep H1) as [H0 | (d & -> & Hs & Hd)].
        * left. exact H0.
        * right. exists d. split; [ left; reflexivity | auto ].
      + right. exists d. split; [ right; exact Hin | auto ]. }
  destruct (Hgen evs initial_world Hrun) as [H0 | H]; [ discriminate | exact H ].
Qed.

Lemma X13_result_comes_from_a_response_witness :
  run initial_world stale_trace = Some stale_world
  /\ results (ui stale_world) = Some sample_data
  /\ exists d : ApiResponse.t,
       In (Settle (Responded true (Parsed d))) stale_trace
       /\ ApiResponse.success d = true
       /\ ApiResponse.data d = Some sample_data.
Proof.
  split; [ reflexivity | ]. split; [ reflexivity | ].
  apply (X13_result_comes_from_a_response stale_trace stale_world sample_data);
    reflexivity.
Defined.

(** X14. What the page shows follows the request: in every reachable
    world with a request outstanding the button is disabled and shows the
    waiting text, and neither the error box nor the summary is on the page;
    in every reachable world with none outstanding the button is enabled
    and shows 'Analyze SEO'.  In any state the error box is on the page
    exactly when the error text is not empty, and the summary exactly when a
    result is held. *)
Theorem X14_page_follows_the_request (w : World) :
  reachable w ->
  (awaiting w = 1 ->
   submit_disabled (ui w) = true
   /\ leaves (submit_button (ui w))
      = [ JSXText "Analyzing... This may take a few minutes" ]
   /\ is_element (error_region (ui w)) = false
   /\ is_element (results_region (ui w)) = false)
  /\ (awaiting w = 0 ->
      submit_disabled (ui w) = false
      /\ leaves (submit_button (ui w)) = [ StringChild (lit "Analyze SEO") ])
  /\ (is_element (error_region (ui w)) = true <-> error (ui w) <> empty_string)
  /\ (is_element (results_region (ui w)) = true <-> results (ui w) <> None).
Proof.
  intros H. destruct (reachable_invariant w H) as [Ha Hl _].
  unfold submit_disabled, submit_button, error_region, results_region.
  destruct (isLoading (ui w)) eqn:Hld.
  - destruct (Hl eq_refl) as [-> ->].
    split; [ intros _; repeat split | ].
    split; [ intros H0; rewrite Ha in H0; discriminate | ].
    split; split; intros H0; try discriminate; contradiction H0; reflexivity.
  - split; [ intros H1; rewrite Ha in H1; discriminate | ].
    split; [ intros _; split; reflexivity | ].
    split.
    + rewrite <- truthy_string_nonempty.
      destruct (truthy_string (error (ui w))); split; intros H0;
        try reflexivity; discriminate.
    + destruct (results (ui w)); split; intros H0; try reflexivity;
        try discriminate. contradiction H0; reflexivity.
Qed.

Lemma X14_page_follows_the_request_witness :
  reachable loading_world
  /\ awaiting loading_world = 1
  /\ leaves (submit_button (ui loading_world))
     = [ JSXText "Analyzing... This may take a few minutes" ].
Proof.
  split; [ exists loading_trace; reflexivity | ].
  split; [ reflexivity | ].
  apply (X14_page_follows_the_request loading_world).
  - exists loading_trace. reflexivity.
  - reflexivity.
Defined.

(* ===================================================================== *)
(** * What the body of a request says about the form                      *)
(* ===================================================================== *)

Section Quoting.

Local Open Scope N_scope.

Lemma hex_digit_value (d : N) : d < 16 -> radix_digit 16 (hex_digit d) = Some d.
Proof.
  intros H.
  assert (Hd : d = 0 \/ d = 1 \/ d = 2 \/ d = 3 \/ d = 4 \/ d = 5 \/ d = 6
               \/ d = 7 \/ d = 8 \/ d = 9 \/ d = 10 \/ d = 11 \/ d = 12
               \/ d = 13 \/ d = 14 \/ d = 15) by lia.
  repeat (destruct Hd as [-> | Hd]; [ reflexivity | ]).
  subst d. reflexivity.
Qed.

Lemma read_literal (c : code_unit) (t : jsstring) :
  (c =? 0x22) = false -> (c =? 0x5C) = false ->
  read_string_body (c :: t) = option_map (prepend c) (read_string_body t).
Proof. intros H1 H2. cbn [read_string_body]. rewrite H1, H2. reflexivity. Qed.

Lemma read_unicode_escape (c : code_unit) (t : jsstring) :
  c < 65536 ->
  read_string_body (UnicodeEscape c ++ t)
  = option_map (prepend c) (read_string_body t).
Proof.
  intros Hc. unfold UnicodeEscape. cbn [app read_string_body].
  change (92 =? 34) with false. change (92 =? 92) with true.
  change (117 =? 117) with true. cbv beta iota.
  rewrite !hex_digit_value by (apply N.mod_lt; discriminate).
  replace (c / 4096 mod 16 * 4096 + c / 256 mod 16 * 256
           + c / 16 mod 16 * 16 + c mod 16) with c; [ reflexivity | ].
  zify. Z.to_euclidean_division_equations. lia.
Qed.

Lemma read_simple_escape (e x : code_unit) (t : jsstring) :
  (e =? 0x75) = false -> simple_unescape e = Some x ->
  read_string_body (0x5C :: e :: t)
  = option_map (prepend x) (read_string_body t).
Proof.
  intros H1 H2. cbn [read_string_body].
  change (92 =? 34) with false. change (92 =? 92) with true.
  cbv beta iota. rewrite H1, H2. reflexivity.
Qed.

Lemma escape_json_cons (c : code_unit) (r : jsstring) :
  escape_json (c :: r)
  = if c =? 0x08 then 0x5C :: 0x62 :: escape_json r
    else if c =? 0x09 then 0x5C :: 0x74 :: escape_json r
    else if c =? 0x0A then 0x5C :: 0x6E :: escape_json r
    else if c =? 0x0C then 0x5C :: 0x66 :: escape_json r
    else if c =? 0x0D then 0x5C :: 0x72 :: escape_json r
    else if c =? 0x22 then 0x5C :: 0x22 :: escape_json r
    else if c =? 0x5C then 0x5C :: 0x5C :: escape_json r
    else if c <? 0x20 then UnicodeEscape c ++ escape_json r
    else if is_leading_surrogate c then
      match r with
      | d :: r' =>
          if is_trailing_surrogate d then c :: d :: escape_json r'
          else UnicodeEscape c ++ escape_json r
      | [] => UnicodeEscape c
      end
    else if is_trailing_surrogate c then UnicodeEscape c ++ escape_json r
    else c :: escape_json r.
Proof. destruct r; reflexivity. Qed.

Lemma leading_surrogate_bounds (c : code_unit) :
  is_leading_surrogate c = true -> 0xD800 <= c <= 0xDBFF.
Proof.
  unfold is_leading_surrogate. intros H.
  apply andb_true_iff in H. destruct H as [H1 H2].
  apply N.leb_le in H1, H2. lia.
Qed.

Lemma trailing_surrogate_bounds (c : code_unit) :
  is_trailing_surrogate c = true -> 0xDC00 <= c <= 0xDFFF.
Proof.
  unfold is_trailing_surrogate. intros H.
  apply andb_true_iff in H. destruct H as [H1 H2].
  apply N.leb_le in H1, H2. lia.
Qed.

(** Reading back what [escape_json] wrote, up to the closing quote, gives
    the string and what follows the quote. *)
Lemma read_escape_json (n : nat) :
  forall (s r : jsstring),
    (List.length s <= n)%nat ->
    read_string_body (escape_json s ++ 0x22 :: r) = Some (s, r).
Proof.
  induction n as [ | n IH]; intros s r Hlen; destruct s as [ | c s'];
    try reflexivity; simpl in Hlen; [ lia | ].
  pose proof (IH s' r ltac:(lia)) as IHs.
  rewrite escape_json_cons.
  destruct (c =? 8) eqn:E8;
    [ apply N.eqb_eq in E8; subst c; cbn [app];
      rewrite (read_simple_escape _ 8) by reflexivity;
      rewrite IHs; reflexivity | ].
  destruct (c =? 9) eqn:E9;
    [ apply N.eqb_eq in E9; subst c; cbn [app];
      rewrite (read_simple_escape _ 9) by reflexivity;
      rewrite IHs; reflexivity | ].
  destruct (c =? 10) eqn:E10;
    [ apply N.eqb_eq in E10; subst c; cbn [app];
      rewrite (read_simple_escape _ 10) by reflexivity;
      rewrite IHs; reflexivity | ].
  destruct (c =? 12) eqn:E12;
    [ apply N.eqb_eq in E12; subst c; cbn [app];
      rewrite (read_simple_escape _ 12) by reflexivity;
      rewrite IHs; reflexivity | ].
  destruct (c =? 13) eqn:E13;
    [ apply N.eqb_eq in E13; subst c; cbn [app];
      rewrite (read_simple_escape _ 13) by reflexivity;
      rewrite IHs; reflexivity | ].
  destruct (c =? 34) eqn:E34;
    [ apply N.eqb_eq in E34; subst c; cbn [app];
      rewrite (read_simple_escape _ 34) by reflexivity;
      rewrite IHs; reflexivity | ].
  destruct (c =? 92) eqn:E92;
    [ apply N.eqb_eq in E92; subst c; cbn [app];
      rewrite (read_simple_escape _ 92) by reflexivity;
      rewrite IHs; reflexivity | ].
  destruct (c <? 32) eqn:Ectl.
  { apply N.ltb_lt in Ectl. rewrite <- app_assoc.
    rewrite read_unicode_escape by lia. rewrite IHs. reflexivity. }
  destruct (is_leading_surrogate c) eqn:Elead.
  { apply leading_surrogate_bounds in Elead.
    destruct s' as [ | d s''].
    - rewrite read_unicode_escape by lia. reflexivity.
    - destruct (is_trailing_surrogate d) eqn:Etrail.
      + apply trailing_surrogate_bounds in Etrail.
        cbn [app]. rewrite (read_literal c) by assumption.
        rewrite (read_literal d) by (apply N.eqb_neq; lia).
        simpl in Hlen. rewrite (IH s'' r) by lia. reflexivity.
      + rewrite <- app_assoc. rewrite read_unicode_escape by lia.
        rewrite IHs. reflexivity. }
  destruct (is_trailing_surrogate c) eqn:Etrail.
  { apply trailing_surrogate_bounds in Etrail. rewrite <- app_assoc.
    rewrite read_unicode_escape by lia. rewrite IHs. reflexivity. }
  cbn [app]. rewrite (read_literal c) by assumption.
  rewrite IHs. reflexivity.
Qed.

(** A quoted string ends where its closing quote is: two texts that begin
    with quoted strings agree only if the strings and the rests agree. *)
Lemma escape_json_prefix_free (s1 s2 r1 r2 : jsstring) :
  escape_json s1 ++ 0x22 :: r1 = escape_json s2 ++ 0x22 :: r2 ->
  s1 = s2 /\ r1 = r2.
Proof.
  intros H.
  pose proof (read_escape_json (List.length s1) s1 r1 (le_n _)) as H1.
  pose proof (read_escape_json (List.length s2) s2 r2 (le_n _)) as H2.
  rewrite H in H1. rewrite H1 in H2. injection H2 as -> ->. auto.
Qed.

End Quoting.

Section NumberText.

Lemma decimal_fuel_no_comma (fuel : nat) :
  forall (n : Z) (acc : jsstring),
    Forall not_comma acc -> Forall not_comma (decimal_fuel fuel n acc).
Proof.
  induction fuel as [ | fuel IH]; intros n acc Hacc; cbn [decimal_fuel];
    [ exact Hacc | ].
  assert (Hc : Forall not_comma (Z.to_N (48 + n mod 10) :: acc)).
  { constructor; [ | exact Hacc ].
    pose proof (Z.mod_pos_bound n 10 ltac:(lia)). unfold not_comma. lia. }
  destruct (n <? 10)%Z; [ exact Hc | apply IH; exact Hc ].
Qed.

Lemma decimal_no_comma (n : Z) : Forall not_comma (decimal n).
Proof. apply decimal_fuel_no_comma. constructor. Qed.

Lemma zeros_no_comma (n : Z) : Forall not_comma (zeros n).
Proof.
  unfold zeros. induction (Z.to_nat n) as [ | k IH]; simpl; constructor;
    [ discriminate | exact IH ].
Qed.

Lemma firstn_no_comma (k : nat) (l : jsstring) :
  Forall not_comma l -> Forall not_comma (firstn k l).
Proof.
  intros H. rewrite <- (firstn_skipn k l) in H.
  apply Forall_app in H. apply H.
Qed.

Lemma skipn_no_comma (k : nat) (l : jsstring) :
  Forall not_comma l -> Forall not_comma (skipn k l).
Proof.
  intros H. rewrite <- (firstn_skipn k l) in H.
  apply Forall_app in H. apply H.
Qed.

Ltac no_comma :=
  repeat first
    [ apply Forall_app; split
    | apply decimal_no_comma
    | apply zeros_no_comma
    | apply firstn_no_comma
    | apply skipn_no_comma
    | apply Forall_nil
    | apply Forall_cons; [ discriminate | ] ].

Lemma format_decimal_no_comma (snk : Z * Z * Z) :
  Forall not_comma (format_decimal snk).
Proof.
  destruct snk as [[s n] k]. unfold format_decimal.
  destruct ((k <=? n)%Z && (n <=? 21)%Z); [ no_comma | ].
  destruct ((0 <? n)%Z && (n <=? 21)%Z); [ no_comma | ].
  destruct ((-6 <? n)%Z && (n <=? 0)%Z); [ no_comma | ].
  destruct (n - 1 <? 0)%Z, (k =? 1)%Z; no_comma.
Qed.

(** The text of a number has no comma in it. *)
Lemma number_text_no_comma (x : number) :
  Forall not_comma (SerializeJSONProperty (JSNumber x)).
Proof.
  unfold SerializeJSONProperty, NumberToString.
  destruct x as [s | s | | s m e]; cbn [is_finite]; try (no_comma; fail).
  destruct s; apply Forall_app; split; no_comma;
    apply format_decimal_no_comma.
Qed.

Lemma split_at_comma (a1 a2 r1 r2 : jsstring) :
  Forall not_comma a1 -> Forall not_comma a2 ->
  a1 ++ 0x2C%N :: r1 = a2 ++ 0x2C%N :: r2 ->
  a1 = a2 /\ r1 = r2.
Proof.
  intros H1. revert a2.
  induction H1 as [ | c a1 Hc _ IH]; intros a2 H2 H;
    destruct H2 as [ | c2 a2 Hc2 H2]; simpl in H.
  - injection H as ->. auto.
  - injection H as <- _. contradiction Hc2. reflexivity.
  - injection H as -> _. contradiction Hc. reflexivity.
  - injection H as -> H. destruct (IH a2 H2 H) as [-> ->]. auto.
Qed.

End NumberText.

Section Body.
Local Open Scope N_scope.

Lemma JSON_stringify_layout :
  exists K1 K2 K3 K4 K5 K6 K7 : jsstring,
    forall f : FormData.t,
      JSON_stringify f
      = K1 ++ escape_json (FormData.url f) ++ 0x22
        :: K2 ++ escape_json (FormData.root_domain f) ++ 0x22
        :: K3 ++ escape_json (FormData.account_identifier f) ++ 0x22
        :: K4 ++ escape_json (FormData.language f) ++ 0x22
        :: K5 ++ SerializeJSONProperty (JSNumber (FormData.date_range f))
        ++ 0x2C
        :: K6 ++ escape_json (FormData.start_date f) ++ 0x22
        :: K7 ++ escape_json (FormData.end_date f) ++ 0x22 :: [0x7D].
Proof.
  exists (lit "{" ++ quoted "url" ++ lit ":" ++ [0x22]).
  exists (lit "," ++ quoted "root_domain" ++ lit ":" ++ [0x22]).
  exists (lit "," ++ quoted "account_identifier" ++ lit ":" ++ [0x22]).
  exists (lit "," ++ quoted "language" ++ lit ":" ++ [0x22]).
  exists (lit "," ++ quoted "date_range" ++ lit ":").
  exists (quoted "start_date" ++ lit ":" ++ [0x22]).
  exists (lit "," ++ quoted "end_date" ++ lit ":" ++ [0x22]).
  intros [u r a l d s e].
  unfold JSON_stringify, SerializeJSONObject, own_properties.
  cbn [map join_comma fst snd FormData.url FormData.root_domain
       FormData.account_identifier FormData.language FormData.date_range
       FormData.start_date FormData.end_date].
  change (SerializeJSONProperty (JSString u)) with (0x22 :: escape_json u ++ [0x22]).
  change (SerializeJSONProperty (JSString r)) with (0x22 :: escape_json r ++ [0x22]).
  change (SerializeJSONProperty (JSString a)) with (0x22 :: escape_json a ++ [0x22]).
  change (SerializeJSONProperty (JSString l)) with (0x22 :: escape_json l ++ [0x22]).
  change (SerializeJSONProperty (JSString s)) with (0x22 :: escape_json s ++ [0x22]).
  change (SerializeJSONProperty (JSString e)) with (0x22 :: escape_json e ++ [0x22]).
  generalize (SerializeJSONProperty (JSNumber d)). intros num.
  generalize (escape_json u), (escape_json r), (escape_json a),
    (escape_json l), (escape_json s), (escape_json e).
  intros eu er ea el es ee.
  repeat (rewrite <- ?app_assoc; cbn [app]).
  reflexivity.
Qed.

End Body.

(** X15. The body keeps the text fields apart and intact: whatever was
    typed, quotes, backslashes, control characters and unpaired surrogates
    included, two forms that serialize to the same body have the same [url],
    [root_domain], [account_identifier], [language], [start_date] and
    [end_date], and the same text for [date_range]. *)
Theorem X15_body_determines_text_fields (f1 f2 : FormData.t) :
  JSON_stringify f1 = JSON_stringify f2 ->
  FormData.url f1 = FormData.url f2
  /\ FormData.root_domain f1 = FormData.root_domain f2
  /\ FormData.account_identifier f1 = FormData.account_identifier f2
  /\ FormData.language f1 = FormData.language f2
  /\ SerializeJSONProperty (JSNumber (FormData.date_range f1))
     = SerializeJSONProperty (JSNumber (FormData.date_range f2))
  /\ FormData.start_date f1 = FormData.start_date f2
  /\ FormData.end_date f1 = FormData.end_date f2.
Proof.
  intros H.
  destruct JSON_stringify_layout as (K1 & K2 & K3 & K4 & K5 & K6 & K7 & HL).
  rewrite !HL in H.
  apply app_inv_head in H.
  apply escape_json_prefix_free in H. destruct H as [Hu H].
  apply app_inv_head in H.
  apply escape_json_prefix_free in H. destruct H as [Hr H].
  apply app_inv_head in H.
  apply escape_json_prefix_free in H. destruct H as [Ha H].
  apply app_inv_head in H.
  apply escape_json_prefix_free in H. destruct H as [Hl H].
  apply app_inv_head in H.
  apply split_at_comma in H; try apply number_text_no_comma.
  destruct H as [Hd H].
  apply app_inv_head in H.
  apply escape_json_prefix_free in H. destruct H as [Hs H].
  apply app_inv_head in H.
  apply escape_json_prefix_free in H. destruct H as [He _].
  repeat split; assumption.
Qed.

Lemma X15_body_determines_text_fields_witness :
  JSON_stringify filled_form
  = JSON_stringify (update_field name_date_range (lit "30 days") filled_form)
  /\ FormData.url filled_form
     = FormData.url (update_field name_date_range (lit "30 days") filled_form).
Proof.
  split; [ reflexivity | ].
  apply (X15_body_determines_text_fields filled_form
           (update_field name_date_range (lit "30 days") filled_form)).
  reflexivity.
Defined.
